(** * Personal Finance Dashboard: the analytics of [app.py]

    A shallow embedding of the financial utilities of [app.py]
    ([compute_summary], [financial_health_score], [generate_insights]), of
    the chart aggregations computed at module level, and of the ledger
    store they read from ([add_entry], [get_entries_df], the CSV import
    loop), followed by the properties the specification states about them.
    The users and budgets tables ([add_user], [get_user], [set_budget],
    [get_budget]), the sidebar login, the entry form, the summary metrics
    of the page and the story of [create_pdf_report] are embedded as well,
    with the properties the code itself shows.

    Modelling conventions.
    - Amounts are [float] in the source (SQLite [REAL], pandas [float64]).
      They are modelled by exact rationals [Q]: rounding, infinities and NaN
      are outside the model.  Equalities between sums that are computed in
      different orders are therefore stated with [==] on [Q].
    - A data frame is the list of its rows, in row order.
    - A Python exception is a value of [exn]; code that can raise lives in
      the [result] monad.  Division raises [ZeroDivisionError] on a zero
      divisor, as Python's [float] does.
    - [date.today()] is an explicit argument [today].
    - An f-string message is modelled by a constructor of [insight] that
      carries the interpolated values; the rendering of numbers into text
      ([:.0%], [:,.2f]) is not modelled.
    - Strings are ASCII strings. *)

From Stdlib Require Import ZArith QArith Qround Qminmax Lqa Lia List Bool.
From Stdlib Require Import Ascii String Sorted Permutation.
From Stdlib Require Import OrderedTypeEx.
Import ListNotations.

Open Scope Q_scope.

(** ** Exceptions *)

Inductive exn : Type :=
| ZeroDivisionError
| ValueError
| KeyError
| IndexError.

Inductive result (A : Type) : Type :=
| Ok (a : A)
| Raise (e : exn).

Arguments Ok {A} a.
Arguments Raise {A} e.

Definition bind {A B : Type} (r : result A) (k : A -> result B) : result B :=
  match r with
  | Ok a => k a
  | Raise e => Raise e
  end.

Notation "x <- r ;; k" := (bind r (fun x => k))
  (at level 61, r at next level, right associativity).

(** ** Numbers *)

Module Num.

(** [a < b] on floats. *)
Definition ltb (a b : Q) : bool := negb (Qle_bool b a).

(** [a / b], raising on a zero divisor. *)
Definition div (a b : Q) : result Q :=
  if Qeq_bool b 0 then Raise ZeroDivisionError else Ok (a / b).

(** Python's [max(a, b)]: the first argument is kept unless the second is
    strictly larger. *)
Definition max (a b : Q) : Q := if ltb a b then b else a.

(** Python's [int(x)] on a float: truncation towards zero. *)
Definition int (x : Q) : Z := Z.quot (Qnum x) (Zpos (Qden x)).

(** [Series.sum()]: the elements added left to right, starting from 0. *)
Definition sum (l : list Q) : Q := fold_left Qplus l 0.

End Num.

(** ** Dates

    A calendar date; [weekday] follows CPython's [datetime.date]:
    [(toordinal() + 6) % 7] with Monday = 0. *)

Record date : Type := mkDate { year : Z; month : Z; day : Z }.

Module Date.

Definition is_leap (y : Z) : bool :=
  ((y mod 4 =? 0) && (negb (y mod 100 =? 0) || (y mod 400 =? 0)))%Z.

Definition days_before_year (y : Z) : Z :=
  (let y1 := y - 1 in y1 * 365 + y1 / 4 - y1 / 100 + y1 / 400)%Z.

Definition DAYS_BEFORE_MONTH : list Z :=
  [-1; 0; 31; 59; 90; 120; 151; 181; 212; 243; 273; 304; 334]%Z.

Definition days_before_month (y m : Z) : Z :=
  (nth (Z.to_nat m) DAYS_BEFORE_MONTH 0
   + (if (2 <? m) && is_leap y then 1 else 0))%Z.

Definition toordinal (d : date) : Z :=
  (days_before_year (year d) + days_before_month (year d) (month d) + day d)%Z.

Definition weekday (d : date) : Z := ((toordinal d + 6) mod 7)%Z.

(** Chronological order, as on the ISO strings the store keeps. *)
Definition compare (a b : date) : comparison :=
  match (year a ?= year b)%Z with
  | Eq => match (month a ?= month b)%Z with
          | Eq => (day a ?= day b)%Z
          | c => c
          end
  | c => c
  end.

Definition leb (a b : date) : bool :=
  match compare a b with Gt => false | _ => true end.

(** [d.replace(day=1)] *)
Definition replace_day1 (d : date) : date := mkDate (year d) (month d) 1.

Definition DAY_NAMES : list string :=
  ["Monday"; "Tuesday"; "Wednesday"; "Thursday"; "Friday"; "Saturday";
   "Sunday"]%string.

(** [Series.dt.day_name()] on one date. *)
Definition day_name (d : date) : string :=
  nth (Z.to_nat (weekday d)) DAY_NAMES "Sunday"%string.

End Date.

(** ** The ledger

    One row of the [entries] table.  The columns [id] and [created_at],
    which nothing reads, are left out. *)

Record entry : Type := mkEntry {
  user_id : Z;
  type : string;
  amount : Q;
  category : string;
  note : string;
  date_ : date
}.

(** The frame [get_entries_df] returns. *)
Definition frame : Type := list entry.

(** [df.empty] *)
Definition empty (df : frame) : bool :=
  match df with [] => true | _ => false end.

(** [df[df['type'] == t]] *)
Definition of_type (t : string) (df : frame) : frame :=
  filter (fun r => String.eqb (type r) t) df.

(** ** Financial utilities *)

Definition compute_summary (df : frame) : Q * Q * Q :=
  let income :=
    if negb (empty df) then Num.sum (map amount (of_type "Income" df)) else 0 in
  let expenses :=
    if negb (empty df) then Num.sum (map amount (of_type "Expense" df)) else 0 in
  let savings := income - expenses in
  (income, expenses, savings).

Definition financial_health_score (income expenses : Q) : result Z :=
  if Qle_bool income 0 then Ok 0%Z
  else
    ratio <- Num.div (income - expenses) income ;;
    let save_ratio := Num.max 0 ratio in
    let score := Num.int (save_ratio * 100) in
    Ok (Z.min (Z.max score 0) 100).

(** ** Series, [groupby] and [sort_values]

    A pandas Series is the list of its (index label, value) pairs. *)

Definition series (K : Type) : Type := list (K * Q).

Section Sorting.

Context {A : Type} (le : A -> A -> bool).

(** Insertion in front of the first element that is not smaller: equal
    elements keep the order in which they are inserted. *)
Fixpoint insert_sorted (x : A) (l : list A) : list A :=
  match l with
  | [] => [x]
  | y :: t => if le x y then x :: l else y :: insert_sorted x t
  end.

(** The ascending sort behind [sort_values] and [ORDER BY], modelled by
    the insertion sort numpy runs on short arrays, which is stable.  How
    numpy's default quicksort orders equal values of longer arrays is
    outside the model. *)
Definition stable_sort (l : list A) : list A :=
  fold_right insert_sorted [] l.

End Sorting.

Section GroupBy.

Context {K : Type} (cmp : K -> K -> comparison).

(** The sorted, duplicate-free list of group keys ([groupby] has
    [sort=True] by default). *)
Fixpoint add_key (k : K) (ks : list K) : list K :=
  match ks with
  | [] => [k]
  | k' :: t =>
      match cmp k k' with
      | Lt => k :: ks
      | Eq => ks
      | Gt => k' :: add_key k t
      end
  end.

Definition group_keys (rows : series K) : list K :=
  fold_left (fun ks r => add_key (fst r) ks) rows [].

Definition same_key (k : K) (r : K * Q) : bool :=
  match cmp (fst r) k with Eq => true | _ => false end.

(** The values of the rows of one group, in row order. *)
Definition group (k : K) (rows : series K) : list Q :=
  map snd (filter (same_key k) rows).

(** [rows.groupby(key)[value].sum()] *)
Definition groupby_sum (rows : series K) : series K :=
  map (fun k => (k, Num.sum (group k rows))) (group_keys rows).

(** [s.get(k)]: the value at the first label equal to [k]. *)
Fixpoint lookup (k : K) (s : series K) : option Q :=
  match s with
  | [] => None
  | (k', v) :: t =>
      match cmp k' k with Eq => Some v | _ => lookup k t end
  end.

(** [s.reindex(labels).fillna(0)]: a label that [s] lacks gets NaN, which
    [fillna] replaces by 0. *)
Definition reindex_fillna0 (labels : list K) (s : series K) : series K :=
  map (fun k => (k, match lookup k s with Some v => v | None => 0 end))
      labels.

End GroupBy.

Definition value_le {K : Type} (x y : K * Q) : bool :=
  Qle_bool (snd x) (snd y).

(** [s.sort_values(ascending=False)], as pandas' [nargsort] does it: the
    values are reversed, sorted ascending, and the outcome is reversed. *)
Definition sort_values_desc {K : Type} (s : series K) : series K :=
  rev (stable_sort value_le (rev s)).

(** [s.cumsum()] *)
Fixpoint cumsum_from {K : Type} (acc : Q) (s : series K) : series K :=
  match s with
  | [] => []
  | (k, v) :: t => (k, acc + v) :: cumsum_from (acc + v) t
  end.

Definition cumsum {K : Type} (s : series K) : series K := cumsum_from 0 s.

(** [s.index[0]] and [s.iloc[0]] *)
Definition index0 {K : Type} (s : series K) : result K :=
  match s with
  | [] => Raise IndexError
  | (k, _) :: _ => Ok k
  end.

Definition iloc0 {K : Type} (s : series K) : result Q :=
  match s with
  | [] => Raise IndexError
  | (_, v) :: _ => Ok v
  end.

(** The columns [category] and [amount] of a frame. *)
Definition category_amount (df : frame) : series string :=
  map (fun r => (category r, amount r)) df.

(** [(df['type'] == 'Expense').any()] *)
Definition any_expense (df : frame) : bool :=
  existsb (fun r => String.eqb (type r) "Expense") df.

(** ** Insights *)

Inductive insight : Type :=
| TopCategoryWarning (top_pct : Q) (top_cat : string)
    (* "You spend {top_pct} of your expenses on {top_cat}. Consider reducing it." *)
| TopCategoryOk (top_cat : string) (top_pct : Q)
    (* "Your highest expense category is {top_cat} ({top_pct} of expenses)." *)
| BudgetExceeded (budget monthly_exp : Q)
    (* "You exceeded your monthly budget of {budget}. You've spent {monthly_exp} this month." *)
| BudgetUsed (pct monthly_exp budget : Q)
    (* "You used {pct} of your monthly budget ({monthly_exp} of {budget})." *)
| LowSavings
    (* "Your savings are very low. Try reducing non-essential spending or increasing income." *)
| NoMajorIssues.
    (* "No major issues detected. Keep tracking your expenses!" *)

(** [df[(df['type']=='Expense') & (date >= this_month)]] *)
Definition expenses_since (this_month : date) (df : frame) : frame :=
  filter (fun r => String.eqb (type r) "Expense"
                   && Date.leb this_month (date_ r)) df.

Definition generate_insights (today : date) (df : frame) (income expenses : Q)
    (budget : option Q) : result (list insight) :=
  let insights : list insight := [] in
  insights <-
    (if negb (empty df) && any_expense df then
       let exp_df :=
         sort_values_desc
           (groupby_sum String.compare (category_amount (of_type "Expense" df))) in
       top_cat <- index0 exp_df ;;
       top_val <- iloc0 exp_df ;;
       top_pct <- (if Num.ltb 0 expenses then Num.div top_val expenses
                   else Ok 0) ;;
       if Num.ltb 0.4 top_pct
       then Ok (insights ++ [TopCategoryWarning top_pct top_cat])
       else Ok (insights ++ [TopCategoryOk top_cat top_pct])
     else Ok insights) ;;
  insights <-
    (match budget with
     | Some budget =>
         let this_month := Date.replace_day1 today in
         let monthly_exp :=
           if negb (empty df)
           then Num.sum (map amount (expenses_since this_month df))
           else 0 in
         if Num.ltb budget monthly_exp
         then Ok (insights ++ [BudgetExceeded budget monthly_exp])
         else
           pct <- (if Num.ltb 0 budget then Num.div monthly_exp budget
                   else Ok 0) ;;
           Ok (insights ++ [BudgetUsed pct monthly_exp budget])
     | None => Ok insights
     end) ;;
  insights <-
    (if Num.ltb 0 income then
       ratio <- Num.div (income - expenses) income ;;
       if Num.ltb ratio 0.05 then Ok (insights ++ [LowSavings])
       else Ok insights
     else Ok insights) ;;
  Ok (match insights with
      | [] => insights ++ [NoMajorIssues]
      | _ => insights
      end).

(** ** Chart aggregations (module level of [app.py]) *)

Module Charts.

(** Pie chart: [exp_df]. *)
Definition exp_df (df : frame) : series string :=
  if negb (empty df)
  then groupby_sum String.compare (category_amount (of_type "Expense" df))
  else [].

(** Line chart: [trend], computed only on a non-empty frame. *)
Definition net (r : entry) : Q :=
  if String.eqb (type r) "Income" then amount r else - amount r.

Definition date_le (a b : entry) : bool := Date.leb (date_ a) (date_ b).

Definition trend (df : frame) : option (series date) :=
  if negb (empty df) then
    let df_sorted := stable_sort date_le df in
    Some (cumsum (groupby_sum Date.compare
                    (map (fun r => (date_ r, net r)) df_sorted)))
  else None.

(** Bar chart: [monthly], computed only on a non-empty frame.  A monthly
    period is the pair (year, month). *)
Definition to_period_M (d : date) : Z * Z := (year d, month d).

Definition period_compare (a b : Z * Z) : comparison :=
  match (fst a ?= fst b)%Z with
  | Eq => (snd a ?= snd b)%Z
  | c => c
  end.

Definition monthly (df : frame) : option (series (Z * Z)) :=
  if negb (empty df) then
    Some (groupby_sum period_compare
            (map (fun r => (to_period_M (date_ r), amount r))
                 (of_type "Expense" df)))
  else None.

(** Heat map: [heat], computed only on a non-empty frame. *)
Definition WEEKDAYS : list string :=
  ["Monday"; "Tuesday"; "Wednesday"; "Thursday"; "Friday"; "Saturday";
   "Sunday"]%string.

Definition weekday_amount (df : frame) : series string :=
  map (fun r => (Date.day_name (date_ r), amount r)) df.

(** The expression bound to [heat], without the guard around it. *)
Definition heat_of (df : frame) : series string :=
  reindex_fillna0 String.compare WEEKDAYS
    (groupby_sum String.compare (weekday_amount (of_type "Expense" df))).

Definition heat (df : frame) : option (series string) :=
  if negb (empty df) then Some (heat_of df) else None.

End Charts.

(** ** The ledger store and the CSV import *)

Module Text.

Definition is_upper (c : ascii) : bool :=
  (65 <=? nat_of_ascii c)%nat && (nat_of_ascii c <=? 90)%nat.

Definition is_lower (c : ascii) : bool :=
  (97 <=? nat_of_ascii c)%nat && (nat_of_ascii c <=? 122)%nat.

Definition to_lower (c : ascii) : ascii :=
  if is_upper c then ascii_of_nat (nat_of_ascii c + 32) else c.

Definition to_upper (c : ascii) : ascii :=
  if is_lower c then ascii_of_nat (nat_of_ascii c - 32) else c.

(** [s.lower()] *)
Fixpoint lower (s : string) : string :=
  match s with
  | EmptyString => EmptyString
  | String c t => String (to_lower c) (lower t)
  end.

(** [s.capitalize()]: first character upper-cased, the rest lower-cased. *)
Definition capitalize (s : string) : string :=
  match s with
  | EmptyString => EmptyString
  | String c t => String (to_upper c) (lower t)
  end.

End Text.

(** The [entries] table: its rows in insertion order. *)
Definition table : Type := list entry.

Definition add_entry (conn : table) (user_id : Z) (type_ : string) (amount : Q)
    (category note : string) (date_str : date) : table :=
  conn ++ [mkEntry user_id type_ amount category note date_str].

(** [SELECT * FROM entries WHERE user_id=? ORDER BY date ASC] *)
Definition get_entries_df (conn : table) (uid : Z) : frame :=
  stable_sort Charts.date_le (filter (fun r => (user_id r =? uid)%Z) conn).

(** One row of the uploaded frame.  The fields hold what the conversions of
    the import loop make of the cells: [str(row['type'])],
    [float(row['amount'])], [row.get('category', 'Other')] and
    [pd.to_datetime(row['date']).date()]; a conversion that raises is a
    [Raise]. *)
Record csv_row : Type := mkRow {
  row_type : result string;
  row_amount : result Q;
  row_category : string;
  row_date : result date
}.

Record csv_frame : Type := mkCsv {
  columns : list string;
  rows : list csv_row
}.

(** What the sidebar reports after an upload. *)
Inductive import_status : Type :=
| Imported            (* "Imported transactions" *)
| MissingColumns      (* "CSV must have columns: type, amount, category, date" *)
| ImportFailed (e : exn).  (* "Import failed: {e}" *)

Definition required_cols : list string :=
  ["type"; "amount"; "category"; "date"]%string.

Definition has_required_cols (cols : list string) : bool :=
  forallb (fun c => existsb (String.eqb c) (map Text.lower cols)) required_cols.

(** The body of the [for] loop on one row. *)
Definition import_row (conn : table) (uid : Z) (row : csv_row) : result table :=
  raw <- row_type row ;;
  let ttype := Text.capitalize raw in
  amt <- row_amount row ;;
  let cat := row_category row in
  d <- row_date row ;;
  Ok (add_entry conn uid ttype amt cat "" d).

(** The loop: every [add_entry] commits, so the rows stored before an
    exception stay. *)
Fixpoint import_rows (conn : table) (uid : Z) (rs : list csv_row)
    : table * import_status :=
  match rs with
  | [] => (conn, Imported)
  | row :: rest =>
      match import_row conn uid row with
      | Ok conn' => import_rows conn' uid rest
      | Raise e => (conn, ImportFailed e)
      end
  end.

Definition import_csv (conn : table) (uid : Z) (imp_df : csv_frame)
    : table * import_status :=
  if negb (has_required_cols (columns imp_df)) then (conn, MissingColumns)
  else import_rows conn uid (rows imp_df).

(** ** Users and budgets *)

(** One row of the [users] table ([created_at] left out). *)
Record user : Type := mkUser {
  id : Z;
  username : string;
  display_name : string
}.

(** [AUTOINCREMENT]: one more than the largest id in use (no row is ever
    deleted). *)
Definition next_id (users : list user) : Z :=
  (1 + fold_right Z.max 0 (map id users))%Z.

(** [SELECT * FROM users WHERE username=?] with [fetchone()] *)
Definition get_user (users : list user) (name : string) : option user :=
  find (fun u => String.eqb (username u) name) users.

(** Python's [a or b] on an optional string: [None] and the empty string
    are false. *)
Definition or_else (a : option string) (b : string) : string :=
  match a with
  | Some EmptyString | None => b
  | Some s => s
  end.

(** The [INSERT] fails on a username that exists ([UNIQUE]); the exception
    is swallowed. *)
Definition add_user (users : list user) (name : string)
    (display : option string) : list user * option user :=
  let users' :=
    if existsb (fun u => String.eqb (username u) name) users then users
    else users ++ [mkUser (next_id users) name (or_else display name)] in
  (users', get_user users' name).

(** One row of the [budgets] table ([updated_at] left out). *)
Record budget_row : Type := mkBudget {
  budget_user : Z;
  monthly_budget : Q
}.

Definition for_user (uid : Z) (r : budget_row) : bool :=
  (budget_user r =? uid)%Z.

Definition get_budget (budgets : list budget_row) (uid : Z) : option Q :=
  match find (for_user uid) budgets with
  | Some cur => Some (monthly_budget cur)
  | None => None
  end.

Definition set_budget (budgets : list budget_row) (uid : Z) (amount : Q)
    : list budget_row :=
  match find (for_user uid) budgets with
  | Some _ =>
      map (fun r => if for_user uid r then mkBudget uid amount else r) budgets
  | None => budgets ++ [mkBudget uid amount]
  end.

(** ** The page script *)

Record database : Type := mkDb {
  users : list user;
  entries : table;
  budgets : list budget_row
}.

(** The sidebar login, on the username as [strip()] leaves it: [user] stays
    unbound when it is empty. *)
Definition sign_in (db : database) (name : string) : database * option user :=
  match name with
  | EmptyString => (db, None)
  | _ =>
      match get_user (users db) name with
      | Some u => (db, Some u)
      | None =>
          let users' := fst (add_user (users db) name (Some name)) in
          (mkDb users' (entries db) (budgets db), get_user users' name)
      end
  end.

(** The "Add Income / Expense" form, once submitted. *)
Inductive form_status : Type :=
| EntryAdded          (* "Entry added" *)
| EnterValidAmount.   (* "Enter a valid amount" *)

Definition submit_entry (conn : table) (uid : Z) (type_ : string) (amount : Q)
    (category note : string) (date_in : date) : table * form_status :=
  if Qle_bool amount 0 then (conn, EnterValidAmount)
  else (add_entry conn uid type_ amount category note date_in, EntryAdded).

(** How a run of the script ends: the page is rendered, or a name is used
    before it is bound, or a call raises. *)
Inductive run (A : Type) : Type :=
| Rendered (a : A)
| NameError
| Crashed (e : exn).

Arguments Rendered {A} a.
Arguments NameError {A}.
Arguments Crashed {A} e.

Definition lift {A : Type} (r : result A) : run A :=
  match r with
  | Ok a => Rendered a
  | Raise e => Crashed e
  end.



(** ** The PDF report *)

(** Python's truth value of an optional float: [None] and 0 are false. *)
Definition truthy (budget : option Q) : bool :=
  match budget with
  | Some b => negb (Qeq_bool b 0)
  | None => false
  end.

Inductive chart : Type :=
| Pie     (* [fig1], expenses by category *)
| Line    (* [fig2], savings over time *)
| Bar.    (* [fig3], expenses by month *)

(** The charts the "Generate PDF Report" button collects: [fig1] when
    [exp_df] is not empty, [fig2] when [df] is not empty, [fig3] when it
    was created, that is when [df] and [monthly] are not empty. *)
Definition report_images (df : frame) : list chart :=
  (match Charts.exp_df df with [] => [] | _ => [Pie] end)
  ++ (if negb (empty df) then [Line] else [])
  ++ (match Charts.monthly df with
      | Some (_ :: _) => [Bar]
      | _ => []
      end).

(** The flowables of the story; a paragraph carries the values its text
    interpolates. *)
Inductive flowable : Type :=
| Title (name : string)
| Generated
| TotalIncome (income : Q)
| TotalExpenses (expenses : Q)
| Savings (savings : Q)
| MonthlyBudget (budget : Q)
| HealthScore (score : Z)
| Spacer
| Picture (img : chart).

Fixpoint image_flowables (images : list chart) : list flowable :=
  match images with
  | [] => []
  | img :: rest => Picture img :: Spacer :: image_flowables rest
  end.

(** The [story] that [create_pdf_report] builds ([df] is not read). *)
Definition create_pdf_report (u : user) (df : frame)
    (income expenses savings : Q) (budget : option Q) (score : Z)
    (images : list chart) : list flowable :=
  [Title (or_else (Some (display_name u)) (username u)); Spacer;
   Generated; Spacer;
   TotalIncome income; TotalExpenses expenses; Savings savings]
  ++ (match budget with
      | Some b => if truthy budget then [MonthlyBudget b] else []
      | None => []
      end)
  ++ [HealthScore score; Spacer]
  ++ image_flowables images.

(** * Vocabulary of the properties *)

(** The order [stable_sort] sorts a series by, and the order of the keys. *)
Definition val_le {K : Type} (x y : K * Q) : Prop := snd x <= snd y.

Definition key_lt {K : Type} (cmp : K -> K -> comparison) (a b : K) : Prop :=
  cmp a b = Lt.

(** Among the largest values of [m], the one that comes last. *)
Fixpoint last_max {K : Type} (m : series K) : option (K * Q) :=
  match m with
  | [] => None
  | x :: t =>
      match last_max t with
      | None => Some x
      | Some z => if Num.ltb (snd z) (snd x) then Some x else Some z
      end
  end.



(** The sum of the amounts of the entries of one kind, as the
    specification words it. *)
Fixpoint total_of (kind : string) (ledger : frame) : Q :=
  match ledger with
  | [] => 0
  | r :: rest =>
      if String.eqb (type r) kind then amount r + total_of kind rest
      else total_of kind rest
  end.

Definition is_expense_of (c : string) (r : entry) : bool :=
  String.eqb (type r) "Expense" && String.eqb (category r) c.

(** The summed expense of one category. *)
Definition category_total (df : frame) (c : string) : Q :=
  Num.sum (map amount (filter (is_expense_of c) df)).

(** The series [generate_insights] ranks. *)
Definition expense_by_category (df : frame) : series string :=
  groupby_sum String.compare (category_amount (of_type "Expense" df)).

Definition is_top (m : insight) : bool :=
  match m with
  | TopCategoryWarning _ _ | TopCategoryOk _ _ => true
  | _ => false
  end.

Definition is_budget (m : insight) : bool :=
  match m with
  | BudgetExceeded _ _ | BudgetUsed _ _ _ => true
  | _ => false
  end.

Definition is_low (m : insight) : bool :=
  match m with LowSavings => true | _ => false end.

(** Expenses dated on or after the first day of the current month. *)
Definition current_month_expenses (today : date) (df : frame) : Q :=
  Num.sum (map amount (expenses_since (Date.replace_day1 today) df)).

(** What each block of [generate_insights] appends. *)
Definition top_share (top_val expenses : Q) : Q :=
  if Num.ltb 0 expenses then top_val / expenses else 0.

Definition top_message (cat : string) (share : Q) : insight :=
  if Num.ltb 0.4 share then TopCategoryWarning share cat
  else TopCategoryOk cat share.

Definition top_block (df : frame) (expenses : Q) : list insight :=
  if any_expense df then
    match sort_values_desc (expense_by_category df) with
    | (cat, v) :: _ => [top_message cat (top_share v expenses)]
    | [] => []
    end
  else [].

Definition budget_block (today : date) (df : frame) (budget : option Q)
    : list insight :=
  match budget with
  | Some b =>
      let spent := current_month_expenses today df in
      if Num.ltb b spent then [BudgetExceeded b spent]
      else [BudgetUsed (if Num.ltb 0 b then spent / b else 0) spent b]
  | None => []
  end.

Definition low_block (income expenses : Q) : list insight :=
  if Num.ltb 0 income && Num.ltb ((income - expenses) / income) 0.05
  then [LowSavings] else [].

Definition or_fallback (l : list insight) : list insight :=
  match l with [] => [NoMajorIssues] | _ => l end.

Definition is_expense_on (w : string) (r : entry) : bool :=
  String.eqb (type r) "Expense" && String.eqb (Date.day_name (date_ r)) w.

(** The summed expense of one weekday. *)
Definition weekday_total (df : frame) (w : string) : Q :=
  Num.sum (map amount (filter (is_expense_on w) df)).

(** Sample ledgers. *)
Definition food (d : date) (a : Q) : entry :=
  mkEntry 1 "Expense" a "Food" "" d.

Definition rent (d : date) (a : Q) : entry :=
  mkEntry 1 "Expense" a "Rent" "" d.

Definition salary (d : date) (a : Q) : entry :=
  mkEntry 1 "Income" a "Other" "" d.

Definition sample_ledger : frame :=
  [salary (mkDate 2026 11 2) 1000; food (mkDate 2026 11 3) 500].

Definition october_ledger : frame := [food (mkDate 2026 10 15) 500].

Definition tied_ledger : frame :=
  [rent (mkDate 2026 11 1) 100; food (mkDate 2026 11 2) 100].

(** A row whose cells all convert, and the entry the loop stores for it. *)
Definition row_of (x : string * Q * string * date) : csv_row :=
  let '(raw, amt, cat, d) := x in mkRow (Ok raw) (Ok amt) cat (Ok d).

Definition stored_entry (uid : Z) (x : string * Q * string * date) : entry :=
  let '(raw, amt, cat, d) := x in mkEntry uid (Text.capitalize raw) amt cat "" d.

Definition upload_cols : list string :=
  ["type"; "amount"; "category"; "date"; "note"]%string.

Definition upload_data : list (string * Q * string * date) :=
  [("EXPENSE"%string, 40, "Food"%string, mkDate 2026 11 3);
   ("gift"%string, 10, "Other"%string, mkDate 2026 11 4)].

Definition transfer_csv : csv_frame :=
  mkCsv ["type"; "amount"; "category"; "date"]%string
        [row_of ("transfer"%string, 250, "Other"%string, mkDate 2026 11 3)].

Definition day_D : date := mkDate 2026 11 3.

Definition example_ledger : frame := [salary day_D 1000; food day_D 500].

Definition date_before (a b : date) : Prop :=
  (year a < year b
   \/ (year a = year b
       /\ (month a < month b \/ (month a = month b /\ day a < day b))))%Z.

(** The exception the loop body raises on a row, if any. *)
Definition first_error (row : csv_row) : option exn :=
  match row_type row, row_amount row, row_date row with
  | Raise e, _, _ => Some e
  | Ok _, Raise e, _ => Some e
  | Ok _, Ok _, Raise e => Some e
  | Ok _, Ok _, Ok _ => None
  end.

(** [k <= d] in the order of [cmp]. *)
Definition key_le {K : Type} (cmp : K -> K -> comparison) (k d : K) : bool :=
  match cmp k d with Gt => false | _ => true end.

Definition has_key {K : Type} (cmp : K -> K -> comparison) (ks : list K)
    (r : K * Q) : bool :=
  existsb (fun k => same_key cmp k r) ks.

(** A month comes before another. *)
Definition month_before (a b : Z * Z) : Prop :=
  (fst a < fst b \/ (fst a = fst b /\ snd a < snd b))%Z.

(** The net amount of the entries dated up to [d]. *)
Definition net_until (df : frame) (d : date) : Q :=
  Num.sum (map Charts.net (filter (fun r => Date.leb (date_ r) d) df)).

Definition date_net (df : frame) : series date :=
  map (fun r => (date_ r, Charts.net r)) df.

(** * Properties *)

Example score_half :
  financial_health_score 1000 500 = Ok 50%Z.
Proof. reflexivity. Qed.

Example weekday_2026_11_03 :
  Date.day_name (mkDate 2026 11 3) = "Tuesday"%string.
Proof. reflexivity. Qed.

(** ** Numbers *)

Lemma ltb_lt (a b : Q) : Num.ltb a b = true <-> a < b.
Proof.
  unfold Num.ltb. rewrite negb_true_iff.
  split; intro H.
  - apply Qnot_le_lt. intro L. apply Qle_bool_iff in L. congruence.
  - destruct (Qle_bool b a) eqn:E; [|reflexivity].
    apply Qle_bool_iff in E. lra.
Qed.

Lemma ltb_ge (a b : Q) : Num.ltb a b = false <-> b <= a.
Proof.
  unfold Num.ltb. rewrite negb_false_iff. apply Qle_bool_iff.
Qed.

Lemma div_ok (a b : Q) : ~ b == 0 -> Num.div a b = Ok (a / b).
Proof.
  intro H. unfold Num.div.
  destruct (Qeq_bool b 0) eqn:E; [|reflexivity].
  apply Qeq_bool_iff in E. contradiction.
Qed.

Lemma max_ge_0 (x : Q) : 0 <= Num.max 0 x.
Proof.
  unfold Num.max. destruct (Num.ltb 0 x) eqn:E.
  - apply ltb_lt in E. lra.
  - lra.
Qed.


(** On a non-negative float, [int] is the floor. *)
Lemma int_floor (x : Q) : 0 <= x -> Num.int x = Qfloor x.
Proof.
  destruct x as [n d]. unfold Qle, Num.int, Qfloor. simpl. intro H.
  apply Z.quot_div_nonneg; lia.
Qed.

Lemma sum_from (l : list Q) (a : Q) :
  fold_left Qplus l a == a + fold_right Qplus 0 l.
Proof.
  revert a. induction l as [|x l IH]; intro a; simpl.
  - lra.
  - rewrite IH. lra.
Qed.

Lemma sum_cons (x : Q) (l : list Q) : Num.sum (x :: l) == x + Num.sum l.
Proof.
  unfold Num.sum. simpl. rewrite !sum_from. lra.
Qed.

Lemma sum_app (l1 l2 : list Q) : Num.sum (l1 ++ l2) == Num.sum l1 + Num.sum l2.
Proof.
  induction l1 as [|x l1 IH]; simpl.
  - unfold Num.sum at 2. simpl. lra.
  - rewrite !sum_cons, IH. lra.
Qed.

(** ** The health score *)




(** ** The summary *)

Lemma sum_of_type (kind : string) (df : frame) :
  Num.sum (map amount (of_type kind df)) == total_of kind df.
Proof.
  induction df as [|r df IH]; simpl.
  - reflexivity.
  - destruct (String.eqb (type r) kind); simpl.
    + rewrite sum_cons, IH. reflexivity.
    + exact IH.
Qed.

Lemma compute_summary_totals (df : frame) :
  fst (fst (compute_summary df)) == total_of "Income" df
  /\ snd (fst (compute_summary df)) == total_of "Expense" df.
Proof.
  destruct df as [|r df].
  - split; reflexivity.
  - unfold compute_summary.
    change (negb (empty (r :: df))) with true. cbv iota. cbn [fst snd].
    split; apply sum_of_type.
Qed.

(** C2.  For every ledger, the empty one included,
    [total_income - total_expenses] is [savings] exactly, where
    [total_income] and [total_expenses] are the sums of the amounts of the
    Income and of the Expense entries. *)
Theorem compute_summary_savings (df : frame) :
  exists income expenses savings : Q,
    compute_summary df = (income, expenses, savings)
    /\ income - expenses = savings
    /\ income == total_of "Income" df
    /\ expenses == total_of "Expense" df.
Proof.
  pose proof (compute_summary_totals df) as [Hi He].
  destruct (compute_summary df) as [[income expenses] savings] eqn:E.
  exists income, expenses, savings.
  split; [reflexivity|].
  split; [|split; assumption].
  unfold compute_summary in E. inversion E. reflexivity.
Qed.

(** ** Sorting a series by value *)

Section SortValues.

Context {K : Type}.

Lemma value_le_true (x y : K * Q) : value_le x y = true <-> val_le x y.
Proof. apply Qle_bool_iff. Qed.

Lemma value_le_false (x y : K * Q) : value_le x y = false -> snd y < snd x.
Proof.
  intro H. apply Qnot_le_lt. intro L.
  apply value_le_true in L. congruence.
Qed.

Lemma insert_sorted_In (x y : K * Q) (l : series K) :
  In y (insert_sorted value_le x l) -> y = x \/ In y l.
Proof.
  induction l as [|z l IH]; simpl.
  - intros [->|[]]. now left.
  - destruct (value_le x z); simpl.
    + intros [->|H]; auto.
    + intros [->|H]; auto. destruct (IH H); auto.
Qed.

Lemma insert_sorted_sorted (x : K * Q) (l : series K) :
  StronglySorted val_le l -> StronglySorted val_le (insert_sorted value_le x l).
Proof.
  induction 1 as [|z l S IH F]; simpl.
  - repeat constructor.
  - destruct (value_le x z) eqn:E.
    + apply value_le_true in E. constructor.
      * now constructor.
      * constructor; [exact E|].
        eapply Forall_impl; [|exact F].
        intros a Ha. unfold val_le in *. lra.
    + apply value_le_false in E. constructor; [exact IH|].
      apply Forall_forall. intros a Ha.
      apply insert_sorted_In in Ha. destruct Ha as [->|Ha].
      * unfold val_le. lra.
      * rewrite Forall_forall in F. now apply F.
Qed.

Lemma stable_sort_sorted (l : series K) :
  StronglySorted val_le (stable_sort value_le l).
Proof.
  induction l as [|x l IH]; simpl.
  - constructor.
  - now apply insert_sorted_sorted.
Qed.

Lemma hd_error_app (A : Type) (l1 l2 : list A) :
  l1 <> [] -> hd_error (l1 ++ l2) = hd_error l1.
Proof. destruct l1; [congruence | reflexivity]. Qed.

Lemma rev_not_nil (A : Type) (l : list A) : l <> [] -> rev l <> [].
Proof.
  destruct l as [|a l]; [congruence|]. simpl. intros _ H.
  apply app_eq_nil in H. destruct H; discriminate.
Qed.

Lemma insert_sorted_not_nil (x : K * Q) (l : series K) :
  insert_sorted value_le x l <> [].
Proof. destruct l; simpl; [|destruct (value_le x p)]; discriminate. Qed.

Lemma last_In (l : series K) (z : K * Q) :
  hd_error (rev l) = Some z -> In z l.
Proof.
  intro H. apply in_rev. destruct (rev l); [discriminate|].
  inversion H. now left.
Qed.

(** The last element after an insertion into a sorted list. *)
Lemma last_insert_sorted (x : K * Q) (l : series K) :
  StronglySorted val_le l ->
  hd_error (rev (insert_sorted value_le x l)) =
  match hd_error (rev l) with
  | None => Some x
  | Some z => if Num.ltb (snd z) (snd x) then Some x else Some z
  end.
Proof.
  induction 1 as [|y t S IH F]; [reflexivity|].
  simpl insert_sorted. destruct (value_le x y) eqn:E.
  - apply value_le_true in E.
    change (rev (x :: y :: t)) with (rev (y :: t) ++ [x]).
    rewrite hd_error_app by (apply rev_not_nil; discriminate).
    destruct (hd_error (rev (y :: t))) as [z|] eqn:L.
    + assert (Hz : snd y <= snd z).
      { apply last_In in L. destruct L as [<-|L]; [lra|].
        rewrite Forall_forall in F. now apply F. }
      assert (G : Num.ltb (snd z) (snd x) = false).
      { apply ltb_ge. unfold val_le in E. lra. }
      now rewrite G.
    + exfalso. revert L. simpl.
      destruct (rev t); discriminate.
  - apply value_le_false in E.
    change (rev (y :: insert_sorted value_le x t))
      with (rev (insert_sorted value_le x t) ++ [y]).
    rewrite hd_error_app by (apply rev_not_nil, insert_sorted_not_nil).
    rewrite IH. simpl rev.
    destruct t as [|u t].
    + simpl. assert (G : Num.ltb (snd y) (snd x) = true) by now apply ltb_lt.
      now rewrite G.
    + rewrite (hd_error_app _ (rev (u :: t)) [y])
        by (apply rev_not_nil; discriminate).
      reflexivity.
Qed.

Lemma last_stable_sort (m : series K) :
  hd_error (rev (stable_sort value_le m)) = last_max m.
Proof.
  induction m as [|x m IH]; [reflexivity|].
  simpl. rewrite last_insert_sorted by apply stable_sort_sorted.
  now rewrite IH.
Qed.

Lemma last_max_split (m : series K) (z : K * Q) :
  last_max m = Some z ->
  exists m1 m2,
    m = m1 ++ z :: m2
    /\ (forall x, In x m1 -> snd x <= snd z)
    /\ (forall x, In x m2 -> snd x < snd z).
Proof.
  revert z. induction m as [|x m IH]; intros z; simpl; [discriminate|].
  destruct (last_max m) as [w|] eqn:L.
  - destruct (IH w eq_refl) as (m1 & m2 & -> & H1 & H2).
    destruct (Num.ltb (snd w) (snd x)) eqn:E; intro H; inversion H; subst.
    + apply ltb_lt in E. exists [], (m1 ++ w :: m2).
      split; [reflexivity|]. split; [intros ? []|].
      intros a Ha. apply in_app_or in Ha. destruct Ha as [Ha|[<-|Ha]].
      * specialize (H1 a Ha). lra.
      * exact E.
      * specialize (H2 a Ha). lra.
    + apply ltb_ge in E. exists (x :: m1), m2.
      split; [reflexivity|]. split; [|exact H2].
      intros a [<-|Ha]; [exact E | now apply H1].
  - intro H. inversion H; subst. destruct m; [|simpl in L].
    + exists [], []. repeat split; intros ? [].
    + destruct (last_max m); [destruct (Num.ltb _ _)|]; discriminate.
Qed.

Lemma last_max_None (m : series K) : last_max m = None -> m = [].
Proof.
  destruct m as [|x m]; [reflexivity|]. simpl.
  destruct (last_max m); [destruct (Num.ltb _ _)|]; discriminate.
Qed.

(** The first row of [sort_values_desc s] is the first row of [s] that
    carries the largest value. *)
Lemma sort_values_desc_head (s : series K) :
  s <> [] ->
  exists z rest s1 s2,
    sort_values_desc s = z :: rest
    /\ s = s1 ++ z :: s2
    /\ (forall x, In x s1 -> snd x < snd z)
    /\ (forall x, In x s2 -> snd x <= snd z).
Proof.
  intro Hs. unfold sort_values_desc.
  pose proof (last_stable_sort (rev s)) as L.
  destruct (last_max (rev s)) as [z|] eqn:M.
  - destruct (last_max_split _ _ M) as (m1 & m2 & Hm & H1 & H2).
    destruct (rev (stable_sort value_le (rev s))) as [|z' rest];
      [discriminate|].
    inversion L; subst z'. exists z, rest, (rev m2), (rev m1).
    split; [reflexivity|]. split.
    + rewrite <- (rev_involutive s), Hm, rev_app_distr. simpl.
      now rewrite <- app_assoc.
    + split; intros x Hx; apply in_rev in Hx; auto.
  - apply last_max_None in M. exfalso. apply Hs.
    rewrite <- (rev_involutive s), M. reflexivity.
Qed.

End SortValues.

(** ** Grouping *)

Lemma StronglySorted_split (A : Type) (R : A -> A -> Prop) (l1 l2 : list A)
    (x : A) :
  StronglySorted R (l1 ++ x :: l2) ->
  (forall y, In y l1 -> R y x) /\ (forall y, In y l2 -> R x y).
Proof.
  induction l1 as [|a l1 IH]; simpl; intro S; inversion S as [|? ? S' F]; subst.
  - split; [intros ? []|]. now apply Forall_forall.
  - destruct (IH S') as [H1 H2]. split; [|exact H2].
    intros y [<-|Hy]; [|now apply H1].
    rewrite Forall_forall in F. apply F, in_elt.
Qed.

Section GroupByFacts.

Context {K : Type} (cmp : K -> K -> comparison).
Hypothesis cmp_eq : forall a b, cmp a b = Eq <-> a = b.
Hypothesis cmp_antisym : forall a b, cmp a b = CompOpp (cmp b a).
Hypothesis cmp_trans : forall a b c, cmp a b = Lt -> cmp b c = Lt -> cmp a c = Lt.

Lemma add_key_In (k x : K) (ks : list K) :
  In x (add_key cmp k ks) <-> x = k \/ In x ks.
Proof.
  induction ks as [|k' ks IH]; simpl.
  - intuition.
  - destruct (cmp k k') eqn:E; simpl.
    + apply cmp_eq in E. subst k'. intuition.
    + intuition.
    + rewrite IH. intuition.
Qed.

Lemma add_key_sorted (k : K) (ks : list K) :
  StronglySorted (key_lt cmp) ks -> StronglySorted (key_lt cmp) (add_key cmp k ks).
Proof.
  induction 1 as [|k' ks S IH F]; simpl.
  - repeat constructor.
  - destruct (cmp k k') eqn:E.
    + now constructor.
    + constructor; [now constructor|].
      constructor; [exact E|].
      eapply Forall_impl; [|exact F].
      intros a Ha. exact (cmp_trans _ _ _ E Ha).
    + constructor; [exact IH|].
      apply Forall_forall. intros a Ha. apply add_key_In in Ha.
      destruct Ha as [->|Ha].
      * unfold key_lt. rewrite cmp_antisym, E. reflexivity.
      * rewrite Forall_forall in F. now apply F.
Qed.

Lemma fold_add_key_In (rows : series K) (acc : list K) (x : K) :
  In x (fold_left (fun ks r => add_key cmp (fst r) ks) rows acc)
  <-> In x (map fst rows) \/ In x acc.
Proof.
  revert acc. induction rows as [|r rows IH]; intro acc; simpl.
  - intuition.
  - rewrite IH, add_key_In. intuition.
Qed.

Lemma fold_add_key_sorted (rows : series K) (acc : list K) :
  StronglySorted (key_lt cmp) acc ->
  StronglySorted (key_lt cmp) (fold_left (fun ks r => add_key cmp (fst r) ks) rows acc).
Proof.
  revert acc. induction rows as [|r rows IH]; intros acc S; simpl.
  - exact S.
  - now apply IH, add_key_sorted.
Qed.

Lemma group_keys_In (rows : series K) (x : K) :
  In x (group_keys cmp rows) <-> In x (map fst rows).
Proof.
  unfold group_keys. rewrite fold_add_key_In. simpl. intuition.
Qed.

Lemma group_keys_sorted (rows : series K) :
  StronglySorted (key_lt cmp) (group_keys cmp rows).
Proof. apply fold_add_key_sorted. constructor. Qed.

(** The rows of [groupby_sum]: one per key that occurs, with the sum of
    its group, the keys in strictly ascending order. *)
Lemma groupby_sum_In (rows : series K) (k : K) (v : Q) :
  In (k, v) (groupby_sum cmp rows)
  <-> In k (map fst rows) /\ v = Num.sum (group cmp k rows).
Proof.
  unfold groupby_sum. rewrite in_map_iff. split.
  - intros (k' & E & H). inversion E; subst.
    split; [now apply group_keys_In | reflexivity].
  - intros [H ->]. exists k. split; [reflexivity | now apply group_keys_In].
Qed.

Lemma groupby_sum_sorted (rows : series K) :
  StronglySorted (fun x y => key_lt cmp (fst x) (fst y)) (groupby_sum cmp rows).
Proof.
  unfold groupby_sum.
  pose proof (group_keys_sorted rows) as S.
  induction S as [|k ks S IH F]; simpl; constructor; [exact IH|].
  apply Forall_forall. intros x Hx. apply in_map_iff in Hx.
  destruct Hx as (k' & <- & Hk'). simpl.
  rewrite Forall_forall in F. now apply F.
Qed.

Lemma groupby_sum_nil (rows : series K) :
  groupby_sum cmp rows = [] -> rows = [].
Proof.
  intro H. destruct rows as [|[k v] rows]; [reflexivity|].
  assert (I : In (k, Num.sum (group cmp k ((k, v) :: rows)))
                 (groupby_sum cmp ((k, v) :: rows))).
  { apply groupby_sum_In. split; [now left | reflexivity]. }
  rewrite H in I. destruct I.
Qed.

Lemma lookup_tabulate (f : K -> Q) (ks : list K) (k : K) :
  match lookup cmp k (map (fun a => (a, f a)) ks) with
  | Some v => v = f k
  | None => ~ In k ks
  end.
Proof.
  induction ks as [|a ks IH]; simpl.
  - tauto.
  - destruct (cmp a k) eqn:E.
    + apply cmp_eq in E. now subst.
    + destruct (lookup cmp k _); [exact IH|].
      intros [->|H]; [|tauto].
      rewrite (proj2 (cmp_eq k k) eq_refl) in E. discriminate.
    + destruct (lookup cmp k _); [exact IH|].
      intros [->|H]; [|tauto].
      rewrite (proj2 (cmp_eq k k) eq_refl) in E. discriminate.
Qed.

Lemma group_absent (rows : series K) (k : K) :
  ~ In k (map fst rows) -> group cmp k rows = [].
Proof.
  unfold group. induction rows as [|r rows IH]; simpl; intro H.
  - reflexivity.
  - unfold same_key at 1. destruct (cmp (fst r) k) eqn:E.
    + apply cmp_eq in E. tauto.
    + apply IH. tauto.
    + apply IH. tauto.
Qed.

(** A label of [reindex_fillna0] gets the sum of its group, which is 0
    for a label without rows. *)
Lemma reindex_groupby_value (rows : series K) (k : K) :
  match lookup cmp k (groupby_sum cmp rows) with
  | Some v => v
  | None => 0
  end = Num.sum (group cmp k rows).
Proof.
  unfold groupby_sum.
  pose proof (lookup_tabulate (fun a => Num.sum (group cmp a rows))
                (group_keys cmp rows) k) as L.
  destruct (lookup cmp k _) as [v|].
  - exact L.
  - rewrite group_keys_In in L. now rewrite group_absent.
Qed.

End GroupByFacts.

(** String comparison is a strict total order. *)

Lemma string_cmp_eq (a b : string) : String.compare a b = Eq <-> a = b.
Proof. apply String_as_OT.cmp_eq. Qed.

Lemma string_cmp_trans (a b c : string) :
  String.compare a b = Lt -> String.compare b c = Lt -> String.compare a c = Lt.
Proof.
  intros H1 H2. apply String_as_OT.cmp_lt.
  apply String_as_OT.cmp_lt in H1. apply String_as_OT.cmp_lt in H2.
  exact (String_as_OT.lt_trans _ _ _ H1 H2).
Qed.

Lemma string_same_key (k : string) (r : string * Q) :
  same_key String.compare k r = String.eqb (fst r) k.
Proof.
  unfold same_key. destruct (String.eqb_spec (fst r) k) as [->|N].
  - now rewrite (proj2 (string_cmp_eq k k) eq_refl).
  - destruct (String.compare (fst r) k) eqn:E; try reflexivity.
    apply string_cmp_eq in E. contradiction.
Qed.

(** ** The expense categories of a ledger *)

Lemma group_category (df : frame) (c : string) :
  group String.compare c (category_amount (of_type "Expense" df))
  = map amount (filter (is_expense_of c) df).
Proof.
  unfold group, category_amount, of_type, is_expense_of.
  induction df as [|r df IH]; simpl; [reflexivity|].
  destruct (String.eqb (type r) "Expense"); simpl; [|exact IH].
  rewrite string_same_key. simpl.
  destruct (String.eqb (category r) c); simpl; now rewrite IH.
Qed.

Lemma any_expense_true (df : frame) :
  any_expense df = true <-> exists r, In r df /\ type r = "Expense"%string.
Proof.
  unfold any_expense. rewrite existsb_exists.
  split; intros (r & H & E); exists r; split; auto; now apply String.eqb_eq.
Qed.

Lemma any_expense_false (df : frame) :
  any_expense df = false <-> forall r, In r df -> type r <> "Expense"%string.
Proof.
  split.
  - intros H r Hr E.
    assert (T : any_expense df = true) by (apply any_expense_true; eauto).
    congruence.
  - intro H. destruct (any_expense df) eqn:E; [|reflexivity].
    apply any_expense_true in E. destruct E as (r & Hr & E).
    now destruct (H r Hr).
Qed.

Lemma expense_category_In (df : frame) (c : string) :
  In c (map fst (category_amount (of_type "Expense" df)))
  <-> exists r, In r df /\ type r = "Expense"%string /\ category r = c.
Proof.
  unfold category_amount, of_type. rewrite map_map. simpl.
  rewrite in_map_iff. split.
  - intros (r & <- & H). apply filter_In in H. destruct H as [H E].
    apply String.eqb_eq in E. eauto.
  - intros (r & H & E & <-). exists r. split; [reflexivity|].
    apply filter_In. split; [exact H | now apply String.eqb_eq].
Qed.

Lemma expense_by_category_In (df : frame) (c : string) (v : Q) :
  In (c, v) (expense_by_category df)
  <-> (exists r, In r df /\ type r = "Expense"%string /\ category r = c)
      /\ v = category_total df c.
Proof.
  unfold expense_by_category, category_total.
  rewrite (groupby_sum_In String.compare string_cmp_eq).
  now rewrite expense_category_In, group_category.
Qed.

(** The row that [sort_values] puts first: a category of the ledger's
    expenses whose total is the largest and, among the categories that
    reach that total, the first in the order of the names. *)
Lemma top_category (df : frame) :
  any_expense df = true ->
  exists cat rest,
    sort_values_desc (expense_by_category df)
    = (cat, category_total df cat) :: rest
    /\ (exists r, In r df /\ type r = "Expense"%string /\ category r = cat)
    /\ (forall r, In r df -> type r = "Expense"%string ->
        category_total df (category r) <= category_total df cat)
    /\ (forall r, In r df -> type r = "Expense"%string ->
        category_total df (category r) == category_total df cat ->
        category r = cat \/ String.compare cat (category r) = Lt).
Proof.
  intro A. apply any_expense_true in A. destruct A as (r0 & Hr0 & E0).
  assert (N : expense_by_category df <> []).
  { intro H.
    assert (I : In (category r0, category_total df (category r0))
                   (expense_by_category df))
      by (apply expense_by_category_In; eauto).
    rewrite H in I. destruct I. }
  destruct (sort_values_desc_head _ N) as ([cat v] & rest & s1 & s2 & Hs & Hsplit & H1 & H2).
  assert (Hz : In (cat, v) (expense_by_category df))
    by (rewrite Hsplit; apply in_elt).
  apply expense_by_category_In in Hz. destruct Hz as [Hcat ->].
  pose proof (groupby_sum_sorted String.compare string_cmp_eq
                String.compare_antisym string_cmp_trans
                (category_amount (of_type "Expense" df))) as S.
  fold (expense_by_category df) in S. rewrite Hsplit in S.
  apply StronglySorted_split in S. destruct S as [_ S2].
  assert (Hin : forall r, In r df -> type r = "Expense"%string ->
            In (category r, category_total df (category r)) s1
            \/ category r = cat
            \/ In (category r, category_total df (category r)) s2).
  { intros r Hr E.
    assert (I : In (category r, category_total df (category r))
                   (expense_by_category df))
      by (apply expense_by_category_In; eauto).
    rewrite Hsplit in I. apply in_app_or in I.
    destruct I as [I|[I|I]]; auto.
    inversion I. auto. }
  exists cat, rest. split; [exact Hs|]. split; [exact Hcat|]. split.
  - intros r Hr E. destruct (Hin r Hr E) as [I|[I|I]].
    + apply H1 in I. simpl in I. lra.
    + rewrite I. lra.
    + apply H2 in I. exact I.
  - intros r Hr E T. destruct (Hin r Hr E) as [I|[I|I]].
    + apply H1 in I. simpl in I. lra.
    + now left.
    + right. apply S2 in I. exact I.
Qed.

(** ** The rules of [generate_insights] *)

Lemma div_guarded (a b : Q) :
  (if Num.ltb 0 b then Num.div a b else Ok 0)
  = Ok (if Num.ltb 0 b then a / b else 0).
Proof.
  destruct (Num.ltb 0 b) eqn:E; [|reflexivity].
  apply ltb_lt in E. apply div_ok. lra.
Qed.

Lemma empty_any_expense (df : frame) :
  negb (empty df) && any_expense df = any_expense df.
Proof. now destruct df. Qed.

Lemma monthly_exp_guard (today : date) (df : frame) :
  (if negb (empty df)
   then Num.sum (map amount (expenses_since (Date.replace_day1 today) df))
   else 0) = current_month_expenses today df.
Proof. now destruct df. Qed.

(** [generate_insights] never raises, and its result is the three blocks
    in order, or the fallback when they are all empty. *)
Lemma generate_insights_blocks (today : date) (df : frame)
    (income expenses : Q) (budget : option Q) :
  generate_insights today df income expenses budget
  = Ok (or_fallback (top_block df expenses
                     ++ budget_block today df budget
                     ++ low_block income expenses)).
Proof.
  unfold generate_insights, top_block, budget_block, low_block,
    top_message, top_share.
  rewrite empty_any_expense. fold (expense_by_category df).
  destruct (any_expense df) eqn:A;
    [destruct (top_category df A) as (cat & rest & -> & _);
     cbn [index0 iloc0 bind]; rewrite div_guarded; cbn [bind];
     destruct (Num.ltb 0.4 _)
    |];
    cbn [bind app];
    (destruct budget as [b|];
     [rewrite monthly_exp_guard;
      destruct (Num.ltb b _); [|rewrite div_guarded]
     |]);
    cbn [bind app];
    (destruct (Num.ltb 0 income) eqn:I;
     [apply ltb_lt in I; rewrite div_ok by lra; cbn [bind andb];
      destruct (Num.ltb _ 0.05)
     |]);
    reflexivity.
Qed.

Lemma top_block_shape (df : frame) (expenses : Q) :
  top_block df expenses = []
  \/ exists m, top_block df expenses = [m] /\ is_top m = true.
Proof.
  unfold top_block. destruct (any_expense df); [|now left].
  destruct (sort_values_desc (expense_by_category df)) as [|[cat v] ?];
    [now left|].
  right. eexists. split; [reflexivity|].
  unfold top_message. now destruct (Num.ltb 0.4 _).
Qed.

Lemma budget_block_shape (today : date) (df : frame) (budget : option Q) :
  budget_block today df budget = []
  \/ exists m, budget_block today df budget = [m] /\ is_budget m = true.
Proof.
  unfold budget_block. destruct budget as [b|]; [|now left].
  right. destruct (Num.ltb b _); eexists; split; reflexivity.
Qed.

Lemma low_block_shape (income expenses : Q) :
  low_block income expenses = [] \/ low_block income expenses = [LowSavings].
Proof. unfold low_block. destruct (_ && _); auto. Qed.

Lemma blocks_out (t b l : list insight) :
  (t = [] \/ exists m, t = [m] /\ is_top m = true) ->
  (b = [] \/ exists m, b = [m] /\ is_budget m = true) ->
  (l = [] \/ l = [LowSavings]) ->
  let out := or_fallback (t ++ b ++ l) in
  filter is_top out = t
  /\ filter is_budget out = b
  /\ filter is_low out = l
  /\ out <> []
  /\ (In NoMajorIssues out <-> t = [] /\ b = [] /\ l = [])
  /\ (In NoMajorIssues out -> out = [NoMajorIssues])
  /\ (~ In NoMajorIssues out -> out = t ++ b ++ l).
Proof.
  intros [->|(m1 & -> & H1)] [->|(m2 & -> & H2)] [->| ->];
    try (destruct m1; try discriminate H1);
    try (destruct m2; try discriminate H2);
    simpl; repeat split; intros; simpl in *; intuition (try discriminate).
Qed.

(** The outcome of [generate_insights], block by block. *)
Lemma generate_insights_out (today : date) (df : frame)
    (income expenses : Q) (budget : option Q) :
  exists out,
    generate_insights today df income expenses budget = Ok out
    /\ filter is_top out = top_block df expenses
    /\ filter is_budget out = budget_block today df budget
    /\ filter is_low out = low_block income expenses
    /\ out <> []
    /\ (In NoMajorIssues out <->
        top_block df expenses = [] /\ budget_block today df budget = []
        /\ low_block income expenses = [])
    /\ (In NoMajorIssues out -> out = [NoMajorIssues])
    /\ (~ In NoMajorIssues out ->
        out = top_block df expenses ++ budget_block today df budget
              ++ low_block income expenses).
Proof.
  rewrite generate_insights_blocks. eexists. split; [reflexivity|].
  apply blocks_out.
  - apply top_block_shape.
  - apply budget_block_shape.
  - apply low_block_shape.
Qed.

Lemma top_block_nil (df : frame) (expenses : Q) :
  top_block df expenses = [] <-> (forall r, In r df -> type r <> "Expense"%string).
Proof.
  rewrite <- any_expense_false. unfold top_block.
  destruct (any_expense df) eqn:A.
  - destruct (top_category df A) as (cat & rest & -> & _).
    split; discriminate.
  - tauto.
Qed.

Lemma budget_block_nil (today : date) (df : frame) (budget : option Q) :
  budget_block today df budget = [] <-> budget = None.
Proof.
  unfold budget_block. destruct budget as [b|]; [|tauto].
  destruct (Num.ltb b _); split; discriminate.
Qed.

Lemma low_block_fires (income expenses : Q) :
  low_block income expenses = [LowSavings]
  <-> 0 < income /\ (income - expenses) / income < 0.05.
Proof.
  unfold low_block.
  destruct (Num.ltb 0 income) eqn:I; simpl.
  - apply ltb_lt in I.
    destruct (Num.ltb ((income - expenses) / income) 0.05) eqn:R.
    + apply ltb_lt in R. tauto.
    + apply ltb_ge in R. split; [discriminate|]. intros [_ H]. lra.
  - apply ltb_ge in I. split; [discriminate|]. intros [H _]. lra.
Qed.

Lemma low_block_nil (income expenses : Q) :
  low_block income expenses = []
  <-> ~ (0 < income /\ (income - expenses) / income < 0.05).
Proof.
  rewrite <- low_block_fires.
  destruct (low_block_shape income expenses) as [-> | ->].
  - split; [discriminate | reflexivity].
  - split; [discriminate | intro H; now destruct H].
Qed.

(** C3.  [generate_insights] returns a non-empty list on every input.  The
    "no major issues" message is in it exactly when no rule fired (no
    Expense entry, no budget, low-savings condition false), and is then its
    only element; otherwise the list is the top-category messages, then the
    budget messages, then the low-savings messages. *)
Theorem generate_insights_never_empty (today : date) (df : frame)
    (income expenses : Q) (budget : option Q) :
  exists out,
    generate_insights today df income expenses budget = Ok out
    /\ out <> []
    /\ (In NoMajorIssues out <->
        (forall r, In r df -> type r <> "Expense"%string)
        /\ budget = None
        /\ ~ (0 < income /\ (income - expenses) / income < 0.05))
    /\ (In NoMajorIssues out -> out = [NoMajorIssues])
    /\ (~ In NoMajorIssues out ->
        out = filter is_top out ++ filter is_budget out ++ filter is_low out).
Proof.
  destruct (generate_insights_out today df income expenses budget)
    as (out & E & Ht & Hb & Hl & N & F & F1 & F2).
  exists out. split; [exact E|]. split; [exact N|]. split.
  - rewrite F, top_block_nil, budget_block_nil, low_block_nil. reflexivity.
  - split; [exact F1|]. rewrite Ht, Hb, Hl. exact F2.
Qed.



(** C6.  The low-savings rule contributes nothing when
    [total_income <= 0] (its division is not evaluated: the call never
    raises), contributes its fixed advisory exactly when
    [total_income > 0] and
    [(total_income - total_expenses) / total_income < 0.05], and never
    contributes more than one message. *)
Theorem low_savings_rule (today : date) (df : frame) (income expenses : Q)
    (budget : option Q) :
  exists out,
    generate_insights today df income expenses budget = Ok out
    /\ (income <= 0 -> filter is_low out = [])
    /\ (filter is_low out = [LowSavings] <->
        0 < income /\ (income - expenses) / income < 0.05)
    /\ (filter is_low out = [] \/ filter is_low out = [LowSavings]).
Proof.
  destruct (generate_insights_out today df income expenses budget)
    as (out & E & _ & _ & Hl & _).
  exists out. split; [exact E|]. rewrite Hl. split.
  - intro I. apply low_block_nil. intros [H _]. lra.
  - split; [apply low_block_fires | apply low_block_shape].
Qed.

(** ** The weekday aggregate *)

Lemma group_weekday (df : frame) (w : string) :
  group String.compare w (Charts.weekday_amount (of_type "Expense" df))
  = map amount (filter (is_expense_on w) df).
Proof.
  unfold group, Charts.weekday_amount, of_type, is_expense_on.
  induction df as [|r df IH]; simpl; [reflexivity|].
  destruct (String.eqb (type r) "Expense"); simpl; [|exact IH].
  rewrite string_same_key. simpl.
  destruct (String.eqb (Date.day_name (date_ r)) w); simpl; now rewrite IH.
Qed.

Lemma heat_of_eq (df : frame) :
  Charts.heat_of df = map (fun w => (w, weekday_total df w)) Charts.WEEKDAYS.
Proof.
  unfold Charts.heat_of, reindex_fillna0. apply map_ext. intro w.
  rewrite (reindex_groupby_value String.compare string_cmp_eq).
  now rewrite group_weekday.
Qed.

Lemma day_name_In (d : date) : In (Date.day_name d) Charts.WEEKDAYS.
Proof.
  unfold Date.day_name.
  assert (B : (0 <= Date.weekday d < 7)%Z)
    by (unfold Date.weekday; apply Z.mod_pos_bound; lia).
  assert (C : exists n, Z.to_nat (Date.weekday d) = n /\ (n < 7)%nat)
    by (eexists; split; [reflexivity | lia]).
  destruct C as (n & -> & Hn).
  do 7 (destruct n as [|n]; [simpl; tauto|]). lia.
Qed.

(** Summing, over duplicate-free labels, the sums of the groups. *)
Lemma sum_groups_cons (f : entry -> string) (ks : list string) (r : entry)
    (df : frame) :
  NoDup ks ->
  Num.sum (map (fun k => Num.sum (map amount
             (filter (fun x => String.eqb (f x) k) (r :: df)))) ks)
  == (if existsb (String.eqb (f r)) ks then amount r else 0)
     + Num.sum (map (fun k => Num.sum (map amount
                  (filter (fun x => String.eqb (f x) k) df))) ks).
Proof.
  induction 1 as [|k ks Hk N IH].
  - unfold Num.sum. simpl. lra.
  - cbn [map existsb]. rewrite !sum_cons, IH. cbn [filter].
    destruct (String.eqb_spec (f r) k) as [E|E]; cbn [orb map].
    + assert (X : existsb (String.eqb (f r)) ks = false).
      { destruct (existsb (String.eqb (f r)) ks) eqn:X; [|reflexivity].
        apply existsb_exists in X. destruct X as (k' & Hk' & E').
        apply String.eqb_eq in E'. congruence. }
      rewrite X, sum_cons. lra.
    + destruct (existsb (String.eqb (f r)) ks); lra.
Qed.

Lemma sum_groups (f : entry -> string) (ks : list string) (df : frame) :
  NoDup ks ->
  (forall r, In r df -> In (f r) ks) ->
  Num.sum (map (fun k => Num.sum (map amount
             (filter (fun x => String.eqb (f x) k) df))) ks)
  == Num.sum (map amount df).
Proof.
  intros N. induction df as [|r df IH]; intro H.
  - cbn [filter map]. clear. induction ks as [|k ks IH].
    + reflexivity.
    + cbn [map]. rewrite sum_cons, IH. unfold Num.sum. simpl. lra.
  - rewrite sum_groups_cons by exact N.
    rewrite IH by (intros; apply H; now right).
    assert (X : existsb (String.eqb (f r)) ks = true).
    { apply existsb_exists. exists (f r).
      split; [apply H; now left | apply String.eqb_refl]. }
    rewrite X. cbn [map]. now rewrite sum_cons.
Qed.

Lemma weekdays_NoDup : NoDup Charts.WEEKDAYS.
Proof.
  unfold Charts.WEEKDAYS.
  repeat (constructor; [simpl; intuition discriminate|]). constructor.
Qed.

Lemma filter_expense_on (df : frame) (w : string) :
  filter (is_expense_on w) df
  = filter (fun x => String.eqb (Date.day_name (date_ x)) w)
           (of_type "Expense" df).
Proof.
  unfold of_type, is_expense_on.
  induction df as [|r df IH]; simpl; [reflexivity|].
  destruct (String.eqb (type r) "Expense"); simpl; [|exact IH].
  destruct (String.eqb (Date.day_name (date_ r)) w); now rewrite IH.
Qed.

Lemma weekday_totals_sum (df : frame) :
  Num.sum (map (weekday_total df) Charts.WEEKDAYS) == total_of "Expense" df.
Proof.
  rewrite <- sum_of_type.
  rewrite <- (sum_groups (fun x => Date.day_name (date_ x)) Charts.WEEKDAYS
                (of_type "Expense" df) weekdays_NoDup)
    by (intros; apply day_name_In).
  unfold weekday_total.
  erewrite map_ext; [reflexivity|].
  intro w. cbv beta. now rewrite filter_expense_on.
Qed.

Lemma weekday_total_none (df : frame) (w : string) :
  (forall r, In r df -> type r = "Expense"%string ->
     Date.day_name (date_ r) <> w) ->
  weekday_total df w = 0.
Proof.
  intro H. unfold weekday_total.
  assert (F : filter (is_expense_on w) df = []).
  { induction df as [|r df IH]; [reflexivity|]. simpl.
    unfold is_expense_on at 1.
    destruct (String.eqb_spec (type r) "Expense") as [E|E]; simpl.
    - destruct (String.eqb_spec (Date.day_name (date_ r)) w) as [D|D].
      + exfalso. apply (H r); auto. now left.
      + apply IH. intros; apply H; auto. now right.
    - apply IH. intros; apply H; auto. now right. }
  now rewrite F.
Qed.

(** C7, on the code: the weekday aggregate of the empty ledger is not
    computed. *)
Lemma heat_empty_ledger :
  ~ exists h, Charts.heat [] = Some h /\ List.length h = 7%nat.
Proof. intros (h & H & _). discriminate H. Qed.

(** C7, amended.  For every non-empty ledger the weekday aggregate has
    exactly 7 entries, one per weekday name in the order Monday to Sunday,
    each with the summed Expense amount of that weekday, which is 0 for a
    weekday without Expense entries; the 7 values sum to
    [total_expenses]. *)
Theorem heat_seven_weekdays (df : frame) :
  empty df = false ->
  exists h,
    Charts.heat df = Some h
    /\ List.length h = 7%nat
    /\ map fst h =
       ["Monday"; "Tuesday"; "Wednesday"; "Thursday"; "Friday"; "Saturday";
        "Sunday"]%string
    /\ (forall w v, In (w, v) h -> v = weekday_total df w)
    /\ (forall w, In w (map fst h) ->
        (forall r, In r df -> type r = "Expense"%string ->
           Date.day_name (date_ r) <> w) ->
        In (w, 0) h)
    /\ Num.sum (map snd h) == total_of "Expense" df
    /\ Num.sum (map snd h) == snd (fst (compute_summary df)).
Proof.
  intro N. unfold Charts.heat. rewrite N. simpl negb. cbv iota.
  exists (Charts.heat_of df). split; [reflexivity|].
  rewrite heat_of_eq, map_map, map_map, length_map. cbn [fst snd].
  rewrite map_id.
  split; [reflexivity|]. split; [reflexivity|]. split.
  - intros w v H. apply in_map_iff in H. destruct H as (w' & E & _).
    now inversion E.
  - split.
    + intros w Hw Hnone. apply in_map_iff. exists w.
      split; [|exact Hw]. now rewrite weekday_total_none.
    + assert (S : Num.sum (map (fun x => weekday_total df x) Charts.WEEKDAYS)
                  == total_of "Expense" df) by apply weekday_totals_sum.
      split; [exact S|]. rewrite S. symmetry.
      apply compute_summary_totals.
Qed.

Lemma heat_seven_weekdays_witness :
  empty sample_ledger = false
  /\ exists h,
       Charts.heat sample_ledger = Some h
       /\ List.length h = 7%nat
       /\ map fst h =
          ["Monday"; "Tuesday"; "Wednesday"; "Thursday"; "Friday"; "Saturday";
           "Sunday"]%string
       /\ (forall w v, In (w, v) h -> v = weekday_total sample_ledger w)
       /\ (forall w, In w (map fst h) ->
           (forall r, In r sample_ledger -> type r = "Expense"%string ->
              Date.day_name (date_ r) <> w) ->
           In (w, 0) h)
       /\ Num.sum (map snd h) == total_of "Expense" sample_ledger
       /\ Num.sum (map snd h) == snd (fst (compute_summary sample_ledger)).
Proof.
  split; [reflexivity | apply (heat_seven_weekdays sample_ledger); reflexivity].
Defined.

Example heat_sample :
  Charts.heat sample_ledger
  = Some [("Monday", 0); ("Tuesday", 0 + 500); ("Wednesday", 0);
          ("Thursday", 0); ("Friday", 0); ("Saturday", 0);
          ("Sunday", 0)]%string.
Proof. reflexivity. Qed.

(** ** The empty ledger *)



(** The expression bound to [heat] would give seven zeros on the empty
    ledger; the guard around it keeps it from being evaluated there. *)
Example heat_of_empty :
  Charts.heat_of [] = map (fun w => (w, 0)) Charts.WEEKDAYS.
Proof. reflexivity. Qed.

(** ** Determinism and ties *)


Example october_run :
  generate_insights (mkDate 2026 10 20) october_ledger 0 500 (Some 100)
  = Ok [TopCategoryWarning (500 / 500) "Food"; BudgetExceeded 100 (0 + 500)].
Proof. reflexivity. Qed.

Example november_run :
  generate_insights (mkDate 2026 11 3) october_ledger 0 500 (Some 100)
  = Ok [TopCategoryWarning (500 / 500) "Food"; BudgetUsed (0 / 100) 0 100].
Proof. reflexivity. Qed.



(** On a tie the name decides, not the order of appearance: "Rent" comes
    first in the ledger, "Food" is named. *)
Example tie_names_food :
  generate_insights (mkDate 2026 11 3) tied_ledger 0 200 None
  = Ok [TopCategoryWarning ((0 + 100) / 200) "Food"].
Proof. reflexivity. Qed.

(** ** The CSV import *)







Lemma stable_sort_In (A : Type) (le : A -> A -> bool) (l : list A) (x : A) :
  In x (stable_sort le l) <-> In x l.
Proof.
  assert (I : forall y t, In x (insert_sorted le y t) <-> x = y \/ In x t).
  { intros y t. induction t as [|z t IH]; simpl.
    - intuition.
    - destruct (le y z); simpl; [intuition|]. rewrite IH. intuition. }
  induction l as [|y l IH]; simpl; [tauto|].
  rewrite I, IH. intuition.
Qed.






Example upload_run :
  import_csv [] 1 (mkCsv upload_cols (map row_of upload_data))
  = ([mkEntry 1 "Expense" 40 "Food" "" (mkDate 2026 11 3);
      mkEntry 1 "Gift" 10 "Other" "" (mkDate 2026 11 4)], Imported).
Proof. reflexivity. Qed.

(** A row whose amount does not convert stops the import; the rows before
    it stay stored. *)
Example upload_stops_at_bad_row :
  import_csv [] 1
    (mkCsv upload_cols
       [row_of ("income"%string, 900, "Other"%string, mkDate 2026 11 1);
        mkRow (Ok "expense"%string) (Raise ValueError) "Food"
              (Ok (mkDate 2026 11 2))])
  = ([mkEntry 1 "Income" 900 "Other" "" (mkDate 2026 11 1)],
     ImportFailed ValueError).
Proof. reflexivity. Qed.

(** The column check compares lower-cased names. *)
Example upload_missing_columns :
  import_csv [] 1 (mkCsv ["type"; "amount"; "date"]%string []) = ([], MissingColumns).
Proof. reflexivity. Qed.


(** ** The examples of the specification *)

Example example_summary :
  compute_summary example_ledger = (0 + 1000, 0 + 500, 0 + 1000 - (0 + 500))
  /\ 0 + 1000 - (0 + 500) == 500.
Proof. split; reflexivity. Qed.

Example example_score : financial_health_score 1000 500 = Ok 50%Z.
Proof. reflexivity. Qed.

(** "Food" holds all the expenses, which is above 40%: the warning. *)
Example example_top_category :
  generate_insights day_D example_ledger 1000 500 None
  = Ok [TopCategoryWarning ((0 + 500) / 500) "Food"]
  /\ (0 + 500) / 500 == 1.
Proof. split; reflexivity. Qed.

Example example_no_income :
  financial_health_score 0 200 = Ok 0%Z
  /\ generate_insights day_D [food day_D 200] 0 200 None
     = Ok [TopCategoryWarning ((0 + 200) / 200) "Food"].
Proof. split; reflexivity. Qed.

Example example_budget_exceeded :
  generate_insights day_D [food day_D 1200] 5000 1200 (Some 1000)
  = Ok [TopCategoryWarning ((0 + 1200) / 1200) "Food";
        BudgetExceeded 1000 (0 + 1200)].
Proof. reflexivity. Qed.

Example example_budget_used :
  generate_insights day_D [food day_D 300] 5000 300 (Some 1000)
  = Ok [TopCategoryWarning ((0 + 300) / 300) "Food";
        BudgetUsed ((0 + 300) / 1000) (0 + 300) 1000]
  /\ (0 + 300) / 1000 == 0.3.
Proof. split; reflexivity. Qed.

(** [int] truncates where it differs from the floor, on negative values. *)
Example int_truncates : Num.int (-(1 # 2)) = 0%Z /\ Qfloor (-(1 # 2)) = (-1)%Z.
Proof. split; reflexivity. Qed.

(** * Further properties of the code *)

(** ** The health score *)



Lemma max_0_le (x y : Q) : x <= y -> Num.max 0 x <= Num.max 0 y.
Proof.
  intro H. unfold Num.max.
  destruct (Num.ltb 0 x) eqn:X; destruct (Num.ltb 0 y) eqn:Y;
    try apply ltb_lt in X; try apply ltb_lt in Y;
    try apply ltb_ge in X; try apply ltb_ge in Y; lra.
Qed.

(** The score of a positive income, through the savings ratio. *)
Lemma score_positive_income (income expenses : Q) :
  0 < income ->
  financial_health_score income expenses
  = Ok (Z.min (Z.max (Qfloor (Num.max 0 ((income - expenses) / income) * 100))
                     0) 100).
Proof.
  intro Hi. unfold financial_health_score.
  assert (E : Qle_bool income 0 = false).
  { destruct (Qle_bool income 0) eqn:E; [|reflexivity].
    apply Qle_bool_iff in E. lra. }
  rewrite E, div_ok by lra. simpl.
  rewrite int_floor; [reflexivity|].
  apply Qmult_le_0_compat; [apply max_ge_0 | lra].
Qed.



(** X2.  With a fixed income, spending more never raises the score. *)
Theorem score_antitone_in_expenses (income expenses1 expenses2 : Q) :
  expenses1 <= expenses2 ->
  exists s1 s2,
    financial_health_score income expenses1 = Ok s1
    /\ financial_health_score income expenses2 = Ok s2
    /\ (s2 <= s1)%Z.
Proof.
  intro H. destruct (Qlt_le_dec 0 income) as [Hi|Hi].
  - rewrite !score_positive_income by assumption.
    eexists. eexists. split; [reflexivity|]. split; [reflexivity|].
    assert (R : (income - expenses2) / income <= (income - expenses1) / income).
    { apply Qle_shift_div_l; [assumption|].
      setoid_replace ((income - expenses2) / income * income)
        with (income - expenses2) by (field; lra).
      lra. }
    apply max_0_le in R.
    assert (F : (Qfloor (Num.max 0 ((income - expenses2) / income) * 100)
                 <= Qfloor (Num.max 0 ((income - expenses1) / income) * 100))%Z)
      by (apply Qfloor_resp_le; lra).
    lia.
  - unfold financial_health_score.
    apply Qle_bool_iff in Hi. rewrite Hi.
    exists 0%Z, 0%Z. repeat split. lia.
Qed.

Lemma score_antitone_in_expenses_witness :
  200 <= 700
  /\ exists s1 s2,
       financial_health_score 1000 200 = Ok s1
       /\ financial_health_score 1000 700 = Ok s2
       /\ (s2 <= s1)%Z.
Proof.
  assert (A : 200 <= 700) by (unfold Qle; simpl; lia).
  split; [exact A | apply (score_antitone_in_expenses 1000 200 700 A)].
Defined.







(** ** The summary *)

Lemma total_of_app (kind : string) (a b : frame) :
  total_of kind (a ++ b) == total_of kind a + total_of kind b.
Proof.
  induction a as [|r a IH]; simpl.
  - lra.
  - destruct (String.eqb (type r) kind); rewrite IH; lra.
Qed.

Lemma total_of_perm (kind : string) (a b : frame) :
  Permutation a b -> total_of kind a == total_of kind b.
Proof.
  induction 1 as [|r a b P IH|r r' a|a b c P1 IH1 P2 IH2]; simpl.
  - reflexivity.
  - destruct (String.eqb (type r) kind); rewrite IH; reflexivity.
  - destruct (String.eqb (type r) kind), (String.eqb (type r') kind); lra.
  - now rewrite IH1.
Qed.


Lemma savings_eq (df : frame) :
  snd (compute_summary df)
  = fst (fst (compute_summary df)) - snd (fst (compute_summary df)).
Proof. reflexivity. Qed.

(** X6.  The summary of two ledgers put together is the sum of their
    summaries, component by component. *)
Theorem compute_summary_app (a b : frame) :
  fst (fst (compute_summary (a ++ b)))
  == fst (fst (compute_summary a)) + fst (fst (compute_summary b))
  /\ snd (fst (compute_summary (a ++ b)))
     == snd (fst (compute_summary a)) + snd (fst (compute_summary b))
  /\ snd (compute_summary (a ++ b))
     == snd (compute_summary a) + snd (compute_summary b).
Proof.
  rewrite !savings_eq.
  destruct (compute_summary_totals (a ++ b)) as [I E].
  destruct (compute_summary_totals a) as [Ia Ea].
  destruct (compute_summary_totals b) as [Ib Eb].
  rewrite I, E, Ia, Ea, Ib, Eb, !total_of_app.
  repeat split; lra.
Qed.

(** X7.  The summary does not depend on the order of the rows. *)
Theorem compute_summary_perm (a b : frame) :
  Permutation a b ->
  fst (fst (compute_summary a)) == fst (fst (compute_summary b))
  /\ snd (fst (compute_summary a)) == snd (fst (compute_summary b))
  /\ snd (compute_summary a) == snd (compute_summary b).
Proof.
  intro P. rewrite !savings_eq.
  destruct (compute_summary_totals a) as [Ia Ea].
  destruct (compute_summary_totals b) as [Ib Eb].
  rewrite Ia, Ea, Ib, Eb.
  rewrite (total_of_perm "Income" a b P), (total_of_perm "Expense" a b P).
  repeat split; reflexivity.
Qed.

Lemma compute_summary_perm_witness :
  Permutation sample_ledger (rev sample_ledger)
  /\ fst (fst (compute_summary sample_ledger))
     == fst (fst (compute_summary (rev sample_ledger)))
  /\ snd (fst (compute_summary sample_ledger))
     == snd (fst (compute_summary (rev sample_ledger)))
  /\ snd (compute_summary sample_ledger)
     == snd (compute_summary (rev sample_ledger)).
Proof.
  assert (P : Permutation sample_ledger (rev sample_ledger))
    by apply Permutation_rev.
  split; [exact P | apply (compute_summary_perm _ _ P)].
Defined.




(** ** Sorting, in general *)

Section StableSortFacts.

Context {A : Type} (le : A -> A -> bool).
Hypothesis le_total : forall a b, le a b = false -> le b a = true.
Hypothesis le_trans : forall a b c, le a b = true -> le b c = true -> le a c = true.

Lemma insert_sorted_perm (x : A) (l : list A) :
  Permutation (insert_sorted le x l) (x :: l).
Proof.
  induction l as [|y l IH]; simpl.
  - reflexivity.
  - destruct (le x y); [reflexivity|].
    rewrite IH. apply perm_swap.
Qed.

Lemma stable_sort_perm (l : list A) : Permutation (stable_sort le l) l.
Proof.
  induction l as [|x l IH]; simpl.
  - reflexivity.
  - rewrite insert_sorted_perm. now constructor.
Qed.

Lemma insert_sorted_ordered (x : A) (l : list A) :
  StronglySorted (fun a b => le a b = true) l ->
  StronglySorted (fun a b => le a b = true) (insert_sorted le x l).
Proof.
  induction 1 as [|y l S IH F]; simpl.
  - repeat constructor.
  - destruct (le x y) eqn:E.
    + constructor; [now constructor|].
      constructor; [exact E|].
      eapply Forall_impl; [|exact F]. intros a Ha. exact (le_trans _ _ _ E Ha).
    + constructor; [exact IH|].
      apply Forall_forall. intros a Ha.
      apply (Permutation_in _ (insert_sorted_perm x l)) in Ha.
      destruct Ha as [<-|Ha].
      * now apply le_total.
      * rewrite Forall_forall in F. now apply F.
Qed.

Lemma stable_sort_ordered (l : list A) :
  StronglySorted (fun a b => le a b = true) (stable_sort le l).
Proof.
  induction l as [|x l IH]; simpl.
  - constructor.
  - now apply insert_sorted_ordered.
Qed.

End StableSortFacts.

(** ** The order of dates *)

Lemma date_compare_Lt (a b : date) : Date.compare a b = Lt <-> date_before a b.
Proof.
  unfold Date.compare, date_before.
  destruct (Z.compare_spec (year a) (year b));
    destruct (Z.compare_spec (month a) (month b));
    destruct (Z.compare_spec (day a) (day b));
    split; intro; try discriminate; try reflexivity; lia.
Qed.

Lemma date_compare_Eq (a b : date) : Date.compare a b = Eq <-> a = b.
Proof.
  unfold Date.compare. destruct a as [ya ma da], b as [yb mb db]. simpl.
  destruct (Z.compare_spec ya yb);
    destruct (Z.compare_spec ma mb);
    destruct (Z.compare_spec da db);
    split; intro E; try discriminate; try (inversion E; lia);
    subst; reflexivity.
Qed.

Lemma date_compare_antisym (a b : date) :
  Date.compare a b = CompOpp (Date.compare b a).
Proof.
  unfold Date.compare.
  rewrite (Z.compare_antisym (year a) (year b)),
          (Z.compare_antisym (month a) (month b)),
          (Z.compare_antisym (day a) (day b)).
  destruct (year a ?= year b)%Z, (month a ?= month b)%Z, (day a ?= day b)%Z;
    reflexivity.
Qed.

Lemma date_compare_trans (a b c : date) :
  Date.compare a b = Lt -> Date.compare b c = Lt -> Date.compare a c = Lt.
Proof. rewrite !date_compare_Lt. unfold date_before. lia. Qed.

Lemma date_leb_true (a b : date) :
  Date.leb a b = true <-> date_before a b \/ a = b.
Proof.
  unfold Date.leb. rewrite <- date_compare_Lt, <- date_compare_Eq.
  destruct (Date.compare a b); split; intro H; try reflexivity; try discriminate;
    auto; destruct H; discriminate.
Qed.

Lemma date_leb_total (a b : date) : Date.leb a b = false -> Date.leb b a = true.
Proof.
  unfold Date.leb. rewrite (date_compare_antisym b a).
  destruct (Date.compare a b); simpl; congruence.
Qed.

Lemma date_leb_trans (a b c : date) :
  Date.leb a b = true -> Date.leb b c = true -> Date.leb a c = true.
Proof.
  rewrite !date_leb_true. unfold date_before.
  intros [H1| ->] [H2| ->]; auto. left. lia.
Qed.

(** ** The ledger store *)

Lemma filter_user_app (conn extra : table) (uid : Z) :
  Forall (fun r => user_id r <> uid) extra ->
  filter (fun r => (user_id r =? uid)%Z) (conn ++ extra)
  = filter (fun r => (user_id r =? uid)%Z) conn.
Proof.
  intro F. rewrite filter_app.
  assert (E : filter (fun r => (user_id r =? uid)%Z) extra = []).
  { induction F as [|r extra N F IH]; simpl; [reflexivity|].
    destruct (Z.eqb_spec (user_id r) uid); [contradiction | exact IH]. }
  rewrite E. apply app_nil_r.
Qed.

(** X9.  [get_entries_df] returns exactly the rows of the user, each as
    often as it is stored, in chronological order. *)
Theorem get_entries_df_sorted_rows_of_user (conn : table) (uid : Z) :
  Permutation (get_entries_df conn uid)
              (filter (fun r => (user_id r =? uid)%Z) conn)
  /\ (forall r, In r (get_entries_df conn uid)
                <-> In r conn /\ user_id r = uid)
  /\ StronglySorted (fun a b => Date.leb (date_ a) (date_ b) = true)
       (get_entries_df conn uid).
Proof.
  unfold get_entries_df. split; [apply stable_sort_perm|]. split.
  - intro r. rewrite stable_sort_In, filter_In, Z.eqb_eq. reflexivity.
  - apply (stable_sort_ordered Charts.date_le).
    + intros a b. apply date_leb_total.
    + intros a b c. apply date_leb_trans.
Qed.

(** X10.  Storing an entry for one user leaves the ledger of every other
    user as it was, and adds exactly that entry to the user's own ledger. *)
Theorem add_entry_frame (conn : table) (uid other : Z) (type_ : string)
    (amt : Q) (cat nt : string) (d : date) :
  (other <> uid ->
   get_entries_df (add_entry conn uid type_ amt cat nt d) other
   = get_entries_df conn other)
  /\ Permutation
       (get_entries_df (add_entry conn uid type_ amt cat nt d) uid)
       (mkEntry uid type_ amt cat nt d :: get_entries_df conn uid).
Proof.
  unfold add_entry, get_entries_df. split.
  - intro N. rewrite filter_user_app; [reflexivity|].
    constructor; [simpl; congruence | constructor].
  - rewrite !stable_sort_perm, filter_app. simpl. rewrite Z.eqb_refl.
    symmetry. apply Permutation_cons_append.
Qed.

(** X11.  After an entry is stored, the user's total of its kind has grown
    by its amount and the other total is unchanged; an entry of another
    kind changes neither. *)
Theorem add_entry_summary (conn : table) (uid : Z) (type_ : string)
    (amt : Q) (cat nt : string) (d : date) :
  let before := compute_summary (get_entries_df conn uid) in
  let after :=
    compute_summary (get_entries_df (add_entry conn uid type_ amt cat nt d) uid) in
  fst (fst after)
  == fst (fst before) + (if String.eqb type_ "Income" then amt else 0)
  /\ snd (fst after)
     == snd (fst before) + (if String.eqb type_ "Expense" then amt else 0).
Proof.
  cbv zeta.
  destruct (compute_summary_totals (get_entries_df conn uid)) as [I E].
  destruct (compute_summary_totals
              (get_entries_df (add_entry conn uid type_ amt cat nt d) uid))
    as [I' E'].
  rewrite I, E, I', E'.
  assert (P : Permutation
                (get_entries_df (add_entry conn uid type_ amt cat nt d) uid)
                (mkEntry uid type_ amt cat nt d :: get_entries_df conn uid)).
  { unfold add_entry, get_entries_df.
    rewrite !stable_sort_perm, filter_app. simpl. rewrite Z.eqb_refl.
    symmetry. apply Permutation_cons_append. }
  rewrite (total_of_perm "Income" _ _ P), (total_of_perm "Expense" _ _ P).
  simpl.
  destruct (String.eqb type_ "Income"), (String.eqb type_ "Expense");
    split; lra.
Qed.

(** X12.  The entry form stores a row only for a positive amount, and so
    keeps every stored amount positive. *)
Theorem submit_entry_positive (conn : table) (uid : Z) (type_ : string)
    (amt : Q) (cat nt : string) (d : date) :
  (amt <= 0 ->
   submit_entry conn uid type_ amt cat nt d = (conn, EnterValidAmount))
  /\ (0 < amt ->
      submit_entry conn uid type_ amt cat nt d
      = (conn ++ [mkEntry uid type_ amt cat nt d], EntryAdded))
  /\ (Forall (fun r => 0 < amount r) conn ->
      Forall (fun r => 0 < amount r)
             (fst (submit_entry conn uid type_ amt cat nt d))).
Proof.
  unfold submit_entry, add_entry.
  destruct (Qle_bool amt 0) eqn:E.
  - apply Qle_bool_iff in E. split; [reflexivity|].
    split; [intro; lra | auto].
  - assert (P : 0 < amt).
    { apply Qnot_le_lt. intro L. apply Qle_bool_iff in L. congruence. }
    split; [intro; lra|]. split; [reflexivity|].
    intro F. simpl. apply Forall_app. split; [exact F|].
    constructor; [exact P | constructor].
Qed.

(** ** Budgets *)

Lemma find_map_budget (budgets : list budget_row) (uid v : Z) (a : Q) :
  find (for_user v)
       (map (fun r => if for_user uid r then mkBudget uid a else r) budgets)
  = match find (for_user v) budgets with
    | Some r => Some (if for_user uid r then mkBudget uid a else r)
    | None => None
    end.
Proof.
  induction budgets as [|r budgets IH]; simpl; [reflexivity|].
  destruct (for_user uid r) eqn:U; destruct (for_user v r) eqn:V.
  - rewrite U. unfold for_user in *. simpl.
    apply Z.eqb_eq in U. apply Z.eqb_eq in V.
    replace (uid =? v)%Z with true by (symmetry; apply Z.eqb_eq; congruence).
    reflexivity.
  - unfold for_user at 1. simpl. unfold for_user in U, V.
    apply Z.eqb_eq in U. apply Z.eqb_neq in V.
    replace (uid =? v)%Z with false by (symmetry; apply Z.eqb_neq; congruence).
    exact IH.
  - now rewrite U.
  - exact IH.
Qed.

Lemma find_app_budget (budgets : list budget_row) (r : budget_row) (v : Z) :
  find (for_user v) (budgets ++ [r])
  = match find (for_user v) budgets with
    | Some x => Some x
    | None => if for_user v r then Some r else None
    end.
Proof.
  induction budgets as [|x budgets IH]; simpl; [reflexivity|].
  destruct (for_user v x); [reflexivity | exact IH].
Qed.

(** X13.  A saved budget is the one read back for that user, whether it is
    the first or replaces an earlier one, and the budget of every other
    user is untouched. *)
Theorem set_budget_get_budget (budgets : list budget_row) (uid other : Z)
    (a : Q) :
  get_budget (set_budget budgets uid a) uid = Some a
  /\ (other <> uid ->
      get_budget (set_budget budgets uid a) other = get_budget budgets other).
Proof.
  unfold get_budget, set_budget. split.
  - destruct (find (for_user uid) budgets) as [cur|] eqn:F.
    + rewrite find_map_budget, F.
      apply find_some in F. destruct F as [_ F]. now rewrite F.
    + rewrite find_app_budget, F. unfold for_user. simpl.
      now rewrite Z.eqb_refl.
  - intro N. destruct (find (for_user uid) budgets) as [cur|] eqn:F.
    + rewrite find_map_budget.
      destruct (find (for_user other) budgets) as [r|] eqn:G; [|reflexivity].
      apply find_some in G. destruct G as [_ G]. unfold for_user in *.
      apply Z.eqb_eq in G.
      destruct (Z.eqb_spec (budget_user r) uid); [congruence | reflexivity].
    + rewrite find_app_budget.
      destruct (find (for_user other) budgets); [reflexivity|].
      unfold for_user. simpl.
      destruct (Z.eqb_spec uid other); [congruence | reflexivity].
Qed.

Lemma map_budget_users (budgets : list budget_row) (uid : Z) (a : Q) :
  map budget_user
      (map (fun r => if for_user uid r then mkBudget uid a else r) budgets)
  = map budget_user budgets.
Proof.
  rewrite map_map. apply map_ext. intro r. unfold for_user.
  destruct (Z.eqb_spec (budget_user r) uid); [now simpl | reflexivity].
Qed.

(** X14.  [set_budget] keeps one row per user: a table without two rows of
    one user stays so; saving for a user who has a budget replaces it
    without adding a row, and a second save overwrites the first. *)
Theorem set_budget_one_row_per_user (budgets : list budget_row) (uid : Z)
    (a b : Q) :
  (NoDup (map budget_user budgets) ->
   NoDup (map budget_user (set_budget budgets uid a)))
  /\ (get_budget budgets uid <> None ->
      List.length (set_budget budgets uid a) = List.length budgets)
  /\ set_budget (set_budget budgets uid a) uid b = set_budget budgets uid b.
Proof.
  unfold get_budget, set_budget. split; [|split].
  - intro N. destruct (find (for_user uid) budgets) eqn:F.
    + now rewrite map_budget_users.
    + rewrite map_app. simpl.
      apply NoDup_app; [exact N | |].
      * constructor; [intros [] | constructor].
      * intros x Hx [<-|[]]. apply in_map_iff in Hx.
        destruct Hx as (r & E & Hr).
        apply (find_none _ _ F) in Hr. unfold for_user in Hr.
        apply Z.eqb_neq in Hr. congruence.
  - destruct (find (for_user uid) budgets); [|congruence].
    intros _. apply length_map.
  - destruct (find (for_user uid) budgets) as [cur|] eqn:F.
    + rewrite find_map_budget, F. rewrite map_map. apply map_ext.
      intro r. unfold for_user.
      destruct (Z.eqb_spec (budget_user r) uid); simpl.
      * now rewrite Z.eqb_refl.
      * destruct (Z.eqb_spec (budget_user r) uid); [contradiction|reflexivity].
    + rewrite find_app_budget, F. unfold for_user at 1. simpl.
      rewrite Z.eqb_refl. rewrite map_app. simpl.
      unfold for_user at 2. simpl. rewrite Z.eqb_refl.
      f_equal. rewrite <- (map_id budgets) at 2. apply map_ext_in.
      intros r Hr. apply (find_none _ _ F) in Hr. now rewrite Hr.
Qed.

(** ** Users *)

Lemma existsb_find (A : Type) (p : A -> bool) (l : list A) :
  existsb p l = match find p l with Some _ => true | None => false end.
Proof.
  induction l as [|x l IH]; simpl; [reflexivity|].
  destruct (p x); [reflexivity | exact IH].
Qed.

Lemma find_app_last (A : Type) (p : A -> bool) (l : list A) (x : A) :
  find p (l ++ [x])
  = match find p l with
    | Some y => Some y
    | None => if p x then Some x else None
    end.
Proof.
  induction l as [|y l IH]; simpl; [reflexivity|].
  destruct (p y); [reflexivity | exact IH].
Qed.

Lemma id_lt_next_id (users : list user) (u : user) :
  In u users -> (id u < next_id users)%Z.
Proof.
  unfold next_id. induction users as [|x users IH]; [intros []|].
  cbn [map fold_right]. intros [->|H]; [lia|]. specialize (IH H). lia.
Qed.

Lemma get_user_fresh (users : list user) (name display : string) (i : Z) :
  get_user users name = None ->
  get_user (users ++ [mkUser i name display]) name
  = Some (mkUser i name display).
Proof.
  unfold get_user. intro G. rewrite find_app_last, G. cbn [username].
  now rewrite String.eqb_refl.
Qed.

Lemma add_user_fresh (users : list user) (name : string)
    (display : option string) :
  get_user users name = None ->
  add_user users name display
  = (users ++ [mkUser (next_id users) name (or_else display name)],
     Some (mkUser (next_id users) name (or_else display name))).
Proof.
  intro G. unfold add_user. rewrite existsb_find.
  unfold get_user in G. rewrite G.
  now rewrite get_user_fresh.
Qed.

Lemma add_user_known (users : list user) (name : string)
    (display : option string) (row : user) :
  get_user users name = Some row ->
  add_user users name display = (users, Some row).
Proof.
  intro G. unfold add_user. rewrite existsb_find.
  pose proof G as G'. unfold get_user in G'. rewrite G'. now rewrite G.
Qed.

Lemma get_user_name (users : list user) (name : string) (row : user) :
  get_user users name = Some row -> username row = name.
Proof.
  unfold get_user. intro G. apply find_some in G. destruct G as [_ G].
  now apply String.eqb_eq.
Qed.

(** X15.  [add_user] always hands back a row of the given username.  When
    the username exists, the table and that row stay as they are (the
    display name is not overwritten); otherwise one row is appended, with a
    fresh id and with the username as display name when none, or an empty
    one, is given.  Rows of other usernames are found as before. *)
Theorem add_user_get_user (users : list user) (name : string)
    (display : option string) :
  (exists row,
     snd (add_user users name display) = Some row
     /\ username row = name
     /\ get_user (fst (add_user users name display)) name = Some row)
  /\ (forall row, get_user users name = Some row ->
      add_user users name display = (users, Some row))
  /\ (get_user users name = None ->
      add_user users name display
      = (users ++ [mkUser (next_id users) name (or_else display name)],
         Some (mkUser (next_id users) name (or_else display name))))
  /\ (forall other, other <> name ->
      get_user (fst (add_user users name display)) other
      = get_user users other).
Proof.
  destruct (get_user users name) as [row|] eqn:G.
  - rewrite (add_user_known users name display row G). cbn [fst snd].
    split; [|split; [|split]].
    + exists row. split; [reflexivity|].
      split; [exact (get_user_name _ _ _ G) | exact G].
    + intros row' E. now inversion E.
    + discriminate.
    + reflexivity.
  - rewrite (add_user_fresh users name display G). cbn [fst snd].
    split; [|split; [|split]].
    + eexists. split; [reflexivity|]. split; [reflexivity|].
      now apply get_user_fresh.
    + discriminate.
    + reflexivity.
    + intros other N. unfold get_user. rewrite find_app_last. cbn [username].
      destruct (find (fun u => String.eqb (username u) other) users);
        [reflexivity|].
      destruct (String.eqb_spec name other); [congruence | reflexivity].
Qed.

(** X16.  [add_user] keeps usernames and ids unique. *)
Theorem add_user_keeps_unique (users : list user) (name : string)
    (display : option string) :
  NoDup (map username users) -> NoDup (map id users) ->
  NoDup (map username (fst (add_user users name display)))
  /\ NoDup (map id (fst (add_user users name display))).
Proof.
  intros Hn Hi. unfold add_user. cbn [fst].
  destruct (existsb (fun u => String.eqb (username u) name) users) eqn:E;
    [now split|].
  rewrite !map_app. simpl. split.
  - apply NoDup_app; [exact Hn | constructor; [intros []|constructor] |].
    intros x Hx [<-|[]]. apply in_map_iff in Hx. destruct Hx as (u & Eu & Hu).
    assert (T : existsb (fun u => String.eqb (username u) name) users = true).
    { apply existsb_exists. exists u. split; [exact Hu|]. now apply String.eqb_eq. }
    congruence.
  - apply NoDup_app; [exact Hi | constructor; [intros []|constructor] |].
    intros x Hx [<-|[]]. apply in_map_iff in Hx. destruct Hx as (u & Eu & Hu).
    apply id_lt_next_id in Hu. lia.
Qed.

Lemma add_user_keeps_unique_witness :
  NoDup (map username [mkUser 1 "guest" "guest"])
  /\ NoDup (map id [mkUser 1 "guest" "guest"])
  /\ NoDup (map username (fst (add_user [mkUser 1 "guest" "guest"] "ayan" None)))
  /\ NoDup (map id (fst (add_user [mkUser 1 "guest" "guest"] "ayan" None))).
Proof.
  assert (A : NoDup (map username [mkUser 1 "guest" "guest"]))
    by (simpl; constructor; [intros [] | constructor]).
  assert (B : NoDup (map id [mkUser 1 "guest" "guest"]))
    by (simpl; constructor; [intros [] | constructor]).
  split; [exact A|]. split; [exact B|].
  apply (add_user_keeps_unique [mkUser 1 "guest" "guest"] "ayan" None A B).
Defined.

(** ** The page script *)



(** X17.  Signing in with an empty username binds no user and changes
    nothing.  Signing in with any other username yields a user row of that
    name, creating it at first sight only; entries and budgets are
    untouched, and signing in again changes nothing more. *)
Theorem sign_in_binds_user (db : database) (name : string) :
  (name = EmptyString -> sign_in db name = (db, None))
  /\ (name <> EmptyString ->
      exists u,
        snd (sign_in db name) = Some u
        /\ username u = name
        /\ (get_user (users db) name <> None -> fst (sign_in db name) = db)
        /\ entries (fst (sign_in db name)) = entries db
        /\ budgets (fst (sign_in db name)) = budgets db
        /\ sign_in (fst (sign_in db name)) name
           = (fst (sign_in db name), Some u)).
Proof.
  split; [intros ->; reflexivity|].
  intro N. unfold sign_in.
  destruct name as [|c name]; [congruence|].
  destruct (get_user (users db) (String c name)) as [u|] eqn:G.
  - exists u. cbn [fst snd]. rewrite G.
    split; [reflexivity|].
    split; [exact (get_user_name _ _ _ G) | repeat split].
  - rewrite (add_user_fresh _ _ (Some (String c name)) G).
    cbn [fst snd users entries budgets].
    rewrite (get_user_fresh _ _ _ _ G).
    eexists. split; [reflexivity|]. split; [reflexivity|].
    split; [congruence|]. repeat split.
Qed.


(** ** The CSV import, row by row *)

Lemma import_row_cases (conn : table) (uid : Z) (row : csv_row) :
  (exists x, row = row_of x
             /\ import_row conn uid row = Ok (conn ++ [stored_entry uid x]))
  \/ (exists e, first_error row = Some e
                /\ import_row conn uid row = Raise e).
Proof.
  destruct row as [[raw|e] [amt|e'] cat [d|e'']];
    unfold import_row, first_error; simpl;
    try (right; eexists; split; reflexivity).
  left. exists (raw, amt, cat, d). split; reflexivity.
Qed.

Lemma import_rows_split (uid : Z) (rs : list csv_row) (conn : table) :
  exists data rest,
    rs = map row_of data ++ rest
    /\ fst (import_rows conn uid rs) = conn ++ map (stored_entry uid) data
    /\ ((rest = [] /\ snd (import_rows conn uid rs) = Imported)
        \/ (exists bad rest' e,
              rest = bad :: rest'
              /\ first_error bad = Some e
              /\ snd (import_rows conn uid rs) = ImportFailed e)).
Proof.
  revert conn. induction rs as [|row rs IH]; intro conn.
  - exists [], []. simpl. rewrite app_nil_r. auto.
  - simpl. destruct (import_row_cases conn uid row)
      as [(x & -> & ->)|(e & F & ->)].
    + destruct (IH (conn ++ [stored_entry uid x])) as (data & rest & E & T & S).
      exists (x :: data), rest.
      split; [simpl; now rewrite <- E|].
      split; [rewrite T, <- app_assoc; reflexivity | exact S].
    + exists [], (row :: rs). simpl. rewrite app_nil_r.
      split; [reflexivity|]. split; [reflexivity|].
      right. exists row, rs, e. auto.
Qed.

Lemma stored_entry_user (uid : Z) (data : list (string * Q * string * date)) :
  Forall (fun r => user_id r = uid /\ note r = EmptyString)
         (map (stored_entry uid) data).
Proof.
  induction data as [|[[[raw amt] cat] d] data IH]; simpl; constructor; auto.
Qed.


(** X20.  An import, complete or not, leaves the ledger of every other
    user as it was. *)
Theorem import_csv_other_users (conn : table) (uid other : Z)
    (imp_df : csv_frame) :
  other <> uid ->
  get_entries_df (fst (import_csv conn uid imp_df)) other
  = get_entries_df conn other.
Proof.
  intro N. unfold import_csv.
  destruct (negb (has_required_cols (columns imp_df))); [reflexivity|].
  destruct (import_rows_split uid (rows imp_df) conn)
    as (data & rest & _ & -> & _).
  unfold get_entries_df. rewrite filter_user_app; [reflexivity|].
  eapply Forall_impl; [|apply stored_entry_user].
  intros r [E _]. congruence.
Qed.

Lemma import_csv_other_users_witness :
  2%Z <> 1%Z
  /\ get_entries_df (fst (import_csv sample_ledger 1 transfer_csv)) 2
     = get_entries_df sample_ledger 2.
Proof.
  assert (N : 2%Z <> 1%Z) by discriminate.
  split; [exact N | apply (import_csv_other_users sample_ledger 1 2 transfer_csv N)].
Defined.

(** ** Group sums, in general *)

Lemma sum_perm (a b : list Q) : Permutation a b -> Num.sum a == Num.sum b.
Proof.
  induction 1 as [|x a b P IH|x y a|a b c P1 IH1 P2 IH2].
  - reflexivity.
  - rewrite !sum_cons, IH. reflexivity.
  - rewrite !sum_cons. lra.
  - now rewrite IH1.
Qed.

Lemma sum_nil : Num.sum [] = 0.
Proof. reflexivity. Qed.

Section GroupTotals.

Context {K : Type} (cmp : K -> K -> comparison).
Hypothesis cmp_eq : forall a b, cmp a b = Eq <-> a = b.
Hypothesis cmp_antisym : forall a b, cmp a b = CompOpp (cmp b a).
Hypothesis cmp_trans : forall a b c, cmp a b = Lt -> cmp b c = Lt -> cmp a c = Lt.

Lemma same_key_true (k : K) (r : K * Q) : same_key cmp k r = true <-> fst r = k.
Proof.
  unfold same_key. rewrite <- cmp_eq.
  destruct (cmp (fst r) k); split; intro; congruence.
Qed.

Lemma has_key_true (ks : list K) (r : K * Q) :
  has_key cmp ks r = true <-> In (fst r) ks.
Proof.
  unfold has_key. rewrite existsb_exists. split.
  - intros (k & H & E). apply same_key_true in E. congruence.
  - intro H. exists (fst r). split; [exact H | now apply same_key_true].
Qed.

Lemma group_cons (k : K) (r : K * Q) (rows : series K) :
  group cmp k (r :: rows)
  = if same_key cmp k r then snd r :: group cmp k rows else group cmp k rows.
Proof. unfold group. simpl. now destruct (same_key cmp k r). Qed.

Lemma sum_group_sums_cons (ks : list K) (r : K * Q) (rows : series K) :
  NoDup ks ->
  Num.sum (map (fun k => Num.sum (group cmp k (r :: rows))) ks)
  == (if has_key cmp ks r then snd r else 0)
     + Num.sum (map (fun k => Num.sum (group cmp k rows)) ks).
Proof.
  induction 1 as [|k ks Hk N IH].
  - unfold has_key. cbn [map existsb]. rewrite sum_nil. lra.
  - cbn [map]. rewrite !sum_cons, IH, group_cons.
    unfold has_key. cbn [existsb]. fold (has_key cmp ks r).
    destruct (same_key cmp k r) eqn:E; cbn [orb].
    + apply same_key_true in E.
      assert (X : has_key cmp ks r = false).
      { destruct (has_key cmp ks r) eqn:X; [|reflexivity].
        apply has_key_true in X. congruence. }
      rewrite X, sum_cons. lra.
    + destruct (has_key cmp ks r); lra.
Qed.

(** Summing the group sums of some keys is summing the rows that carry
    one of these keys. *)
Lemma sum_group_sums (ks : list K) (rows : series K) :
  NoDup ks ->
  Num.sum (map (fun k => Num.sum (group cmp k rows)) ks)
  == Num.sum (map snd (filter (has_key cmp ks) rows)).
Proof.
  intro N. induction rows as [|r rows IH].
  - cbn [filter map]. rewrite sum_nil. clear N.
    induction ks as [|k ks IHk]; [reflexivity|].
    cbn [map]. rewrite sum_cons, IHk. unfold group. simpl. rewrite sum_nil. lra.
  - rewrite sum_group_sums_cons by exact N. rewrite IH. cbn [filter].
    destruct (has_key cmp ks r); cbn [map]; [rewrite sum_cons|]; lra.
Qed.

Lemma key_lt_irrefl (k : K) : ~ key_lt cmp k k.
Proof.
  unfold key_lt. rewrite (proj2 (cmp_eq k k) eq_refl). discriminate.
Qed.

Lemma sorted_keys_NoDup (ks : list K) :
  StronglySorted (key_lt cmp) ks -> NoDup ks.
Proof.
  induction 1 as [|k ks S IH F]; constructor; [|exact IH].
  intro H. rewrite Forall_forall in F. exact (key_lt_irrefl k (F k H)).
Qed.

Lemma map_snd_tabulate (f : K -> Q) (ks : list K) :
  map snd (map (fun k => (k, f k)) ks) = map f ks.
Proof. rewrite map_map. reflexivity. Qed.

Lemma map_fst_tabulate (f : K -> Q) (ks : list K) :
  map fst (map (fun k => (k, f k)) ks) = ks.
Proof. rewrite map_map. apply map_id. Qed.

(** The group sums add up to the sum of all rows. *)
Lemma groupby_sum_total (rows : series K) :
  Num.sum (map snd (groupby_sum cmp rows)) == Num.sum (map snd rows).
Proof.
  unfold groupby_sum. rewrite map_snd_tabulate.
  rewrite sum_group_sums
    by (apply sorted_keys_NoDup, (group_keys_sorted cmp cmp_eq cmp_antisym cmp_trans)).
  assert (E : filter (has_key cmp (group_keys cmp rows)) rows = rows).
  { apply forallb_filter_id. apply forallb_forall. intros r Hr.
    apply has_key_true, (group_keys_In cmp cmp_eq). now apply in_map. }
  now rewrite E.
Qed.

(** Among sorted keys, the keys up to [d] are the keys not above [d]. *)
Lemma has_key_prefix (ks1 ks2 : list K) (d : K) (r : K * Q) :
  StronglySorted (key_lt cmp) (ks1 ++ d :: ks2) ->
  In (fst r) (ks1 ++ d :: ks2) ->
  has_key cmp (ks1 ++ [d]) r = key_le cmp (fst r) d.
Proof.
  intros S I. apply StronglySorted_split in S. destruct S as [S1 S2].
  unfold key_le. apply in_app_or in I. destruct I as [I|[I|I]].
  - rewrite (S1 _ I).
    apply has_key_true, in_or_app. now left.
  - rewrite <- I, (proj2 (cmp_eq d d) eq_refl).
    apply has_key_true, in_or_app. right. now left.
  - pose proof (S2 _ I) as L. unfold key_lt in L.
    rewrite cmp_antisym, L. simpl.
    destruct (has_key cmp (ks1 ++ [d]) r) eqn:H; [|reflexivity].
    apply has_key_true, in_app_or in H. destruct H as [H|[H|[]]].
    + pose proof (cmp_trans _ _ _ (S1 _ H) L) as X.
      now apply key_lt_irrefl in X.
    + rewrite H in L. now apply key_lt_irrefl in L.
Qed.

Lemma cumsum_from_tabulate (f : K -> Q) (ks : list K) (acc : Q) (d : K) (v : Q) :
  In (d, v) (cumsum_from acc (map (fun k => (k, f k)) ks)) ->
  exists ks1 ks2,
    ks = ks1 ++ d :: ks2 /\ v == acc + Num.sum (map f (ks1 ++ [d])).
Proof.
  revert acc. induction ks as [|k ks IH]; intro acc; simpl; [intros []|].
  intros [E|H].
  - inversion E; subst. exists [], ks. split; [reflexivity|].
    simpl. rewrite sum_cons, sum_nil. lra.
  - destruct (IH _ H) as (ks1 & ks2 & -> & V).
    exists (k :: ks1), ks2. split; [reflexivity|].
    rewrite V. simpl. rewrite sum_cons. lra.
Qed.

(** A point of the running sum of the group sums is the sum of the rows
    whose key is not above the key of the point. *)
Lemma cumsum_groupby_value (rows : series K) (d : K) (v : Q) :
  In (d, v) (cumsum (groupby_sum cmp rows)) ->
  In d (map fst rows)
  /\ v == Num.sum (map snd (filter (fun r => key_le cmp (fst r) d) rows)).
Proof.
  intro H. unfold cumsum, groupby_sum in H.
  apply cumsum_from_tabulate in H. destruct H as (ks1 & ks2 & E & V).
  pose proof (group_keys_sorted cmp cmp_eq cmp_antisym cmp_trans rows) as S.
  rewrite E in S.
  split.
  - apply (group_keys_In cmp cmp_eq). rewrite E. apply in_elt.
  - rewrite V, sum_group_sums.
    + assert (F : filter (has_key cmp (ks1 ++ [d])) rows
                  = filter (fun r => key_le cmp (fst r) d) rows).
      { apply filter_ext_in. intros r Hr. apply has_key_prefix with ks2.
        - exact S.
        - rewrite <- E. apply (group_keys_In cmp cmp_eq). now apply in_map. }
      rewrite F. lra.
    + apply sorted_keys_NoDup in S.
      replace (ks1 ++ d :: ks2) with ((ks1 ++ [d]) ++ ks2) in S
        by (rewrite <- app_assoc; reflexivity).
      exact (NoDup_app_remove_r _ _ S).
Qed.

Lemma cumsum_from_keys (s : series K) (acc : Q) :
  map fst (cumsum_from acc s) = map fst s.
Proof.
  revert acc. induction s as [|[k v] s IH]; intro acc; simpl;
    [reflexivity | now rewrite IH].
Qed.

Lemma cumsum_from_last (s : series K) (acc dflt : Q) :
  s <> [] ->
  last (map snd (cumsum_from acc s)) dflt == acc + Num.sum (map snd s).
Proof.
  revert acc. induction s as [|[k v] s IH]; intros acc N; [congruence|].
  destruct s as [|[k' v'] s].
  - simpl. rewrite sum_cons, sum_nil. lra.
  - change (last (map snd (cumsum_from acc ((k, v) :: (k', v') :: s))) dflt)
      with (last (map snd (cumsum_from (acc + v) ((k', v') :: s))) dflt).
    rewrite IH by discriminate.
    cbn [map snd]. rewrite !sum_cons. lra.
Qed.

End GroupTotals.

(** ** The chart aggregations *)

Lemma period_compare_Eq (a b : Z * Z) :
  Charts.period_compare a b = Eq <-> a = b.
Proof.
  unfold Charts.period_compare. destruct a as [y m], b as [y' m']. simpl.
  destruct (Z.compare_spec y y'); destruct (Z.compare_spec m m');
    split; intro E; try discriminate; try (inversion E; lia);
    subst; reflexivity.
Qed.

Lemma period_compare_antisym (a b : Z * Z) :
  Charts.period_compare a b = CompOpp (Charts.period_compare b a).
Proof.
  unfold Charts.period_compare.
  rewrite (Z.compare_antisym (fst a) (fst b)),
          (Z.compare_antisym (snd a) (snd b)).
  destruct (fst a ?= fst b)%Z, (snd a ?= snd b)%Z; reflexivity.
Qed.

Lemma period_compare_Lt (a b : Z * Z) :
  Charts.period_compare a b = Lt <-> month_before a b.
Proof.
  unfold Charts.period_compare, month_before.
  destruct (Z.compare_spec (fst a) (fst b));
    destruct (Z.compare_spec (snd a) (snd b));
    split; intro; try discriminate; try reflexivity; lia.
Qed.

Lemma period_compare_trans (a b c : Z * Z) :
  Charts.period_compare a b = Lt -> Charts.period_compare b c = Lt ->
  Charts.period_compare a c = Lt.
Proof. rewrite !period_compare_Lt. unfold month_before. lia. Qed.

Lemma sum_amounts_of_type (K : Type) (kind : string) (f : entry -> K)
    (df : frame) :
  Num.sum (map snd (map (fun r => (f r, amount r)) (of_type kind df)))
  == total_of kind df.
Proof. rewrite map_map. simpl. apply sum_of_type. Qed.

Lemma StronglySorted_impl (A : Type) (R R' : A -> A -> Prop) (l : list A) :
  (forall a b, R a b -> R' a b) -> StronglySorted R l -> StronglySorted R' l.
Proof.
  intros H S. induction S as [|a l S IH F]; constructor; [exact IH|].
  eapply Forall_impl; [|exact F]. intros b. apply H.
Qed.

Lemma exp_df_total (df : frame) :
  Num.sum (map snd (Charts.exp_df df)) == snd (fst (compute_summary df)).
Proof.
  assert (E : Charts.exp_df df = expense_by_category df)
    by (destruct df; reflexivity).
  rewrite E. unfold expense_by_category.
  rewrite (groupby_sum_total String.compare string_cmp_eq
             String.compare_antisym string_cmp_trans).
  unfold category_amount.
  pose proof (sum_amounts_of_type _ "Expense" category df) as T.
  cbv beta in T. rewrite T.
  symmetry. apply compute_summary_totals.
Qed.

(** X21.  The pie chart's series holds one row per category of the
    ledger's expenses, in ascending order of the names, each with the
    summed expense of its category; its values add up to
    [total_expenses]. *)
Theorem exp_df_by_category (df : frame) :
  StronglySorted (fun a b => String.compare a b = Lt)
    (map fst (Charts.exp_df df))
  /\ (forall c v, In (c, v) (Charts.exp_df df)
      <-> (exists r, In r df /\ type r = "Expense"%string /\ category r = c)
          /\ v = category_total df c)
  /\ Num.sum (map snd (Charts.exp_df df)) == snd (fst (compute_summary df)).
Proof.
  assert (E : Charts.exp_df df = expense_by_category df)
    by (destruct df; reflexivity).
  rewrite E. split; [|split].
  - unfold expense_by_category, groupby_sum. rewrite map_fst_tabulate.
    exact (group_keys_sorted String.compare string_cmp_eq
             String.compare_antisym string_cmp_trans _).
  - intros c v. apply expense_by_category_In.
  - rewrite <- E. apply exp_df_total.
Qed.

(** X22.  On a non-empty ledger, the bar chart's series holds one row per
    month in which an expense is dated, in chronological order, and its
    values add up to [total_expenses]. *)
Theorem monthly_by_month (df : frame) :
  empty df = false ->
  exists s,
    Charts.monthly df = Some s
    /\ StronglySorted month_before (map fst s)
    /\ (forall m, In m (map fst s)
        <-> exists r, In r df /\ type r = "Expense"%string
                      /\ (year (date_ r), month (date_ r)) = m)
    /\ Num.sum (map snd s) == snd (fst (compute_summary df)).
Proof.
  intro N. unfold Charts.monthly. rewrite N. simpl negb. cbv iota.
  eexists. split; [reflexivity|]. split; [|split].
  - unfold groupby_sum. rewrite map_fst_tabulate.
    eapply StronglySorted_impl;
      [|exact (group_keys_sorted Charts.period_compare period_compare_Eq
                 period_compare_antisym period_compare_trans _)].
    intros a b. apply period_compare_Lt.
  - intro m. unfold groupby_sum. rewrite map_fst_tabulate.
    rewrite (group_keys_In Charts.period_compare period_compare_Eq).
    rewrite map_map. cbn [fst]. rewrite in_map_iff. unfold of_type.
    split.
    + intros (r & E & H). apply filter_In in H. destruct H as [H T].
      apply String.eqb_eq in T. exists r. auto.
    + intros (r & H & T & E). exists r. split; [exact E|].
      apply filter_In. split; [exact H | now apply String.eqb_eq].
  - rewrite (groupby_sum_total Charts.period_compare period_compare_Eq
               period_compare_antisym period_compare_trans).
    pose proof (sum_amounts_of_type _ "Expense"
                  (fun r => Charts.to_period_M (date_ r)) df) as T.
    cbv beta in T. rewrite T. symmetry. apply compute_summary_totals.
Qed.

Lemma monthly_by_month_witness :
  empty sample_ledger = false
  /\ exists s,
       Charts.monthly sample_ledger = Some s
       /\ StronglySorted month_before (map fst s)
       /\ (forall m, In m (map fst s)
           <-> exists r, In r sample_ledger /\ type r = "Expense"%string
                         /\ (year (date_ r), month (date_ r)) = m)
       /\ Num.sum (map snd s) == snd (fst (compute_summary sample_ledger)).
Proof.
  split; [reflexivity | apply (monthly_by_month sample_ledger); reflexivity].
Defined.

Lemma filter_perm (A : Type) (p : A -> bool) (a b : list A) :
  Permutation a b -> Permutation (filter p a) (filter p b).
Proof.
  induction 1 as [|x a b P IH|x y a|a b c P1 IH1 P2 IH2]; simpl.
  - constructor.
  - destruct (p x); [now constructor | exact IH].
  - destruct (p x), (p y); try reflexivity. apply perm_swap.
  - now transitivity (filter p b).
Qed.

Lemma date_net_until (df : frame) (d : date) :
  map snd (filter (fun x => key_le Date.compare (fst x) d) (date_net df))
  = map Charts.net (filter (fun r => Date.leb (date_ r) d) df).
Proof.
  unfold date_net. induction df as [|r df IH]; simpl; [reflexivity|].
  change (key_le Date.compare (date_ r) d) with (Date.leb (date_ r) d).
  destruct (Date.leb (date_ r) d); simpl; now rewrite IH.
Qed.

Lemma sum_net (df : frame) :
  (forall r, In r df -> type r = "Income"%string \/ type r = "Expense"%string) ->
  Num.sum (map Charts.net df) == total_of "Income" df - total_of "Expense" df.
Proof.
  induction df as [|r df IH]; intro H.
  - simpl. rewrite sum_nil. lra.
  - cbn [map]. rewrite sum_cons, IH by (intros; apply H; now right).
    simpl. unfold Charts.net.
    destruct (H r (or_introl eq_refl)) as [E|E]; rewrite E; simpl; lra.
Qed.

(** X23.  On a non-empty ledger, the line chart's series holds one point
    per date of the ledger, in chronological order; the value at a date is
    the net amount (incomes minus everything else) of all entries dated up
    to it, so the last value is the net amount of the whole ledger, which
    is the savings when every entry is an Income or an Expense. *)
Theorem trend_cumulative_net (df : frame) :
  empty df = false ->
  exists s,
    Charts.trend df = Some s
    /\ s <> []
    /\ StronglySorted date_before (map fst s)
    /\ (forall d, In d (map fst s) <-> exists r, In r df /\ date_ r = d)
    /\ (forall d v, In (d, v) s -> v == net_until df d)
    /\ last (map snd s) 0 == Num.sum (map Charts.net df)
    /\ ((forall r, In r df ->
           type r = "Income"%string \/ type r = "Expense"%string) ->
        last (map snd s) 0 == snd (compute_summary df)).
Proof.
  intro N. unfold Charts.trend. rewrite N. simpl negb. cbv iota. cbv zeta.
  fold (date_net (stable_sort Charts.date_le df)).
  set (sorted := stable_sort Charts.date_le df).
  assert (P : Permutation sorted df) by apply stable_sort_perm.
  assert (K : forall d, In d (map fst (date_net sorted))
                        <-> exists r, In r df /\ date_ r = d).
  { intro d. unfold date_net. rewrite map_map. cbn [fst]. rewrite in_map_iff.
    split; intros (r & A & B).
    - exists r. split; [|exact A]. exact (Permutation_in _ P B).
    - exists r. split; [exact B|].
      exact (Permutation_in _ (Permutation_sym P) A). }
  assert (G : groupby_sum Date.compare (date_net sorted) <> []).
  { intro H.
    apply (groupby_sum_nil Date.compare date_compare_Eq) in H.
    destruct df as [|r df]; [discriminate|].
    assert (I : In r sorted) by (apply (Permutation_in _ (Permutation_sym P)); now left).
    unfold date_net in H. apply map_eq_nil in H. rewrite H in I. destruct I. }
  assert (T : Num.sum (map snd (date_net sorted)) == Num.sum (map Charts.net df)).
  { unfold date_net. rewrite map_map. cbn [snd].
    apply sum_perm, Permutation_map, P. }
  assert (L : last (map snd (cumsum (groupby_sum Date.compare (date_net sorted)))) 0
              == Num.sum (map Charts.net df)).
  { unfold cumsum. rewrite cumsum_from_last by exact G.
    rewrite (groupby_sum_total Date.compare date_compare_Eq
               date_compare_antisym date_compare_trans), T. lra. }
  eexists. split; [reflexivity|]. split; [|split; [|split; [|split; [|split]]]].
  - intro H. apply G. unfold cumsum in H.
    destruct (groupby_sum Date.compare (date_net sorted)) as [|[k v] g];
      [reflexivity | discriminate].
  - unfold cumsum. rewrite cumsum_from_keys.
    unfold groupby_sum. rewrite map_fst_tabulate.
    eapply StronglySorted_impl;
      [|exact (group_keys_sorted Date.compare date_compare_Eq
                 date_compare_antisym date_compare_trans _)].
    intros a b. apply date_compare_Lt.
  - intro d. unfold cumsum. rewrite cumsum_from_keys.
    unfold groupby_sum. rewrite map_fst_tabulate.
    rewrite (group_keys_In Date.compare date_compare_Eq). apply K.
  - intros d v H.
    apply (cumsum_groupby_value Date.compare date_compare_Eq
             date_compare_antisym date_compare_trans) in H.
    destruct H as [_ V]. rewrite V, date_net_until. unfold net_until.
    apply sum_perm, Permutation_map, filter_perm, P.
  - exact L.
  - intro H. rewrite L, (sum_net df H), savings_eq.
    destruct (compute_summary_totals df) as [I E]. rewrite I, E. reflexivity.
Qed.

Lemma trend_cumulative_net_witness :
  empty sample_ledger = false
  /\ exists s,
       Charts.trend sample_ledger = Some s
       /\ s <> []
       /\ StronglySorted date_before (map fst s)
       /\ (forall d, In d (map fst s)
           <-> exists r, In r sample_ledger /\ date_ r = d)
       /\ (forall d v, In (d, v) s -> v == net_until sample_ledger d)
       /\ last (map snd s) 0 == Num.sum (map Charts.net sample_ledger)
       /\ ((forall r, In r sample_ledger ->
              type r = "Income"%string \/ type r = "Expense"%string) ->
           last (map snd s) 0 == snd (compute_summary sample_ledger)).
Proof.
  split; [reflexivity | apply (trend_cumulative_net sample_ledger); reflexivity].
Defined.

Example trend_sample :
  Charts.trend sample_ledger
  = Some [(mkDate 2026 11 2, 0 + (0 + 1000));
          (mkDate 2026 11 3, 0 + (0 + 1000) + (0 + - (500)))].
Proof. reflexivity. Qed.

(** An entry of another kind lowers the curve, though the totals of
    [compute_summary] ignore it. *)
Example trend_counts_unknown_kind :
  Charts.trend [mkEntry 1 "Transfer" 250 "Other" "" (mkDate 2026 11 3)]
  = Some [(mkDate 2026 11 3, 0 + (0 + - (250)))]
  /\ compute_summary [mkEntry 1 "Transfer" 250 "Other" "" (mkDate 2026 11 3)]
     = (0, 0, 0).
Proof. split; reflexivity. Qed.

(** ** The ranking of the categories *)

Lemma StronglySorted_app (A : Type) (R : A -> A -> Prop) (l1 l2 : list A) :
  StronglySorted R l1 -> StronglySorted R l2 ->
  (forall a b, In a l1 -> In b l2 -> R a b) ->
  StronglySorted R (l1 ++ l2).
Proof.
  induction 1 as [|x l1 S IH F]; intros S2 H; simpl; [exact S2|].
  constructor.
  - apply IH; [exact S2|]. intros a b Ha Hb. apply H; [now right | exact Hb].
  - apply Forall_app. split; [exact F|].
    apply Forall_forall. intros b Hb. apply H; [now left | exact Hb].
Qed.

Lemma StronglySorted_rev (A : Type) (R : A -> A -> Prop) (l : list A) :
  StronglySorted R l -> StronglySorted (fun a b => R b a) (rev l).
Proof.
  induction 1 as [|x l S IH F]; simpl; [constructor|].
  apply StronglySorted_app; [exact IH | repeat constructor|].
  intros a b Ha [<-|[]]. apply in_rev in Ha.
  rewrite Forall_forall in F. now apply F.
Qed.

Lemma value_le_total (K : Type) (a b : K * Q) :
  value_le a b = false -> value_le b a = true.
Proof.
  intro H. apply value_le_false in H. apply value_le_true. unfold val_le. lra.
Qed.

(** X24.  The ranking [sort_values(ascending=False)] that
    [generate_insights] reads its top category from keeps every row of the
    series, each once, and lists them by decreasing value. *)
Theorem sort_values_desc_ranking (K : Type) (s : series K) :
  Permutation (sort_values_desc s) s
  /\ StronglySorted (fun a b => snd b <= snd a) (sort_values_desc s).
Proof.
  unfold sort_values_desc. split.
  - rewrite <- Permutation_rev, stable_sort_perm. symmetry. apply Permutation_rev.
  - apply (StronglySorted_rev _ val_le). apply stable_sort_sorted.
Qed.

Lemma sum_le_length (K : Type) (l : series K) (m : Q) :
  (forall x, In x l -> snd x <= m) ->
  Num.sum (map snd l) <= inject_Z (Z.of_nat (List.length l)) * m.
Proof.
  induction l as [|x l IH]; intro H.
  - cbn [map List.length]. rewrite sum_nil.
    change (inject_Z (Z.of_nat 0)) with 0. lra.
  - cbn [map List.length]. rewrite sum_cons, Nat2Z.inj_succ.
    unfold Z.succ. rewrite inject_Z_plus.
    assert (snd x <= m) by (apply H; now left).
    assert (Num.sum (map snd l) <= inject_Z (Z.of_nat (List.length l)) * m)
      by (apply IH; intros; apply H; now right).
    change (inject_Z 1) with 1. lra.
Qed.

Lemma expense_total_positive (df : frame) :
  0 < total_of "Expense" df -> any_expense df = true.
Proof.
  intro H. destruct (any_expense df) eqn:A; [reflexivity|].
  exfalso. rewrite any_expense_false in A.
  assert (Z0 : total_of "Expense" df = 0).
  { clear H. induction df as [|r df IH]; [reflexivity|]. simpl.
    destruct (String.eqb_spec (type r) "Expense") as [E|E].
    - exfalso. apply (A r); [now left | exact E].
    - apply IH. intros; apply A; now right. }
  rewrite Z0 in H. lra.
Qed.

Lemma category_total_le (df : frame) (c : string) :
  (forall r, In r df -> 0 <= amount r) ->
  category_total df c <= total_of "Expense" df.
Proof.
  intro H. unfold category_total. induction df as [|r df IH].
  - simpl. rewrite sum_nil. lra.
  - assert (0 <= amount r) by (apply H; now left).
    assert (L : Num.sum (map amount (filter (is_expense_of c) df))
                <= total_of "Expense" df)
      by (apply IH; intros; apply H; now right).
    simpl. unfold is_expense_of at 1.
    destruct (String.eqb (type r) "Expense"); simpl; [|exact L].
    destruct (String.eqb (category r) c); cbn [map];
      [rewrite sum_cons|]; lra.
Qed.

(** X25.  When [generate_insights] is given the positive expense total of
    its ledger, as the page does, the share it reports for the top
    category is at least one over the number of expense categories, so
    with one or two categories the message is always the warning; without
    negative amounts the share is at most 1. *)
Theorem top_share_bounds (today : date) (df : frame) (income expenses : Q)
    (budget : option Q) :
  0 < expenses -> expenses == total_of "Expense" df ->
  exists out cat share,
    generate_insights today df income expenses budget = Ok out
    /\ (filter is_top out = [TopCategoryWarning share cat]
        \/ filter is_top out = [TopCategoryOk cat share])
    /\ share = category_total df cat / expenses
    /\ 1 <= inject_Z (Z.of_nat (List.length (Charts.exp_df df))) * share
    /\ ((List.length (Charts.exp_df df) <= 2)%nat ->
        filter is_top out = [TopCategoryWarning share cat])
    /\ ((forall r, In r df -> 0 <= amount r) -> share <= 1).
Proof.
  intros P T.
  assert (A : any_expense df = true)
    by (apply expense_total_positive; rewrite <- T; exact P).
  destruct (generate_insights_out today df income expenses budget)
    as (out & E & Ht & _).
  destruct (top_category df A) as (cat & rest & S & _ & Hmax & _).
  assert (X : Charts.exp_df df = expense_by_category df)
    by (destruct df; reflexivity).
  set (n := inject_Z (Z.of_nat (List.length (Charts.exp_df df)))).
  set (top := category_total df cat).
  assert (B : expenses <= n * top).
  { rewrite T, <- (proj2 (compute_summary_totals df)).
    rewrite <- (exp_df_total df).
    unfold n. apply sum_le_length. intros [c v] I. simpl.
    rewrite X in I. apply expense_by_category_In in I.
    destruct I as ((r & Hr & Er & <-) & ->). now apply Hmax. }
  assert (Sh : top_share top expenses = top / expenses).
  { unfold top_share. now rewrite (proj2 (ltb_lt 0 expenses) P). }
  assert (D : n * (top / expenses) == (n * top) / expenses) by (field; lra).
  assert (L : 1 <= n * (top / expenses)).
  { rewrite D. apply Qle_shift_div_l; lra. }
  exists out, cat, (top / expenses).
  split; [exact E|]. rewrite Ht. unfold top_block, top_message.
  rewrite A, S. fold top. rewrite Sh.
  split; [destruct (Num.ltb 0.4 (top / expenses)); auto|].
  split; [reflexivity|]. split; [exact L|]. split.
  - intro N2.
    assert (N : n <= 2).
    { unfold n. change 2 with (inject_Z 2). rewrite <- Zle_Qle. lia. }
    assert (H0 : 0 <= top / expenses).
    { destruct (Qlt_le_dec (top / expenses) 0) as [C|C]; [|exact C].
      exfalso. assert (0 <= n) by (unfold n; change 0 with (inject_Z 0);
        rewrite <- Zle_Qle; lia). nra. }
    assert (W : 0.4 < top / expenses) by nra.
    now rewrite (proj2 (ltb_lt _ _) W).
  - intro H. apply Qle_shift_div_r; [exact P|].
    rewrite T. ring_simplify. now apply category_total_le.
Qed.

Lemma top_share_bounds_witness :
  0 < 200
  /\ 200 == total_of "Expense" tied_ledger
  /\ exists out cat share,
       generate_insights day_D tied_ledger 0 200 None = Ok out
       /\ (filter is_top out = [TopCategoryWarning share cat]
           \/ filter is_top out = [TopCategoryOk cat share])
       /\ share = category_total tied_ledger cat / 200
       /\ 1 <= inject_Z (Z.of_nat (List.length (Charts.exp_df tied_ledger))) * share
       /\ ((List.length (Charts.exp_df tied_ledger) <= 2)%nat ->
           filter is_top out = [TopCategoryWarning share cat])
       /\ ((forall r, In r tied_ledger -> 0 <= amount r) -> share <= 1).
Proof.
  assert (A : 0 < 200) by reflexivity.
  assert (B : 200 == total_of "Expense" tied_ledger) by reflexivity.
  split; [exact A|]. split; [exact B|].
  apply (top_share_bounds day_D tied_ledger 0 200 None A B).
Defined.

(** ** The budget message *)

(** X26.  The informational budget message never reports more than 100%:
    it appears only when the month's expenses do not exceed the budget,
    and its ratio is at most 1, and not negative when no amount and no
    budget is. *)
Theorem budget_used_at_most_100 (today : date) (df : frame)
    (income expenses : Q) (budget : option Q) (out : list insight)
    (pct spent b : Q) :
  generate_insights today df income expenses budget = Ok out ->
  In (BudgetUsed pct spent b) out ->
  budget = Some b
  /\ spent = current_month_expenses today df
  /\ spent <= b
  /\ pct <= 1
  /\ ((forall r, In r df -> 0 <= amount r) -> 0 <= pct).
Proof.
  intros E I.
  destruct (generate_insights_out today df income expenses budget)
    as (out' & E' & _ & Hb & _).
  rewrite E in E'. inversion E'; subst out'.
  assert (I' : In (BudgetUsed pct spent b) (filter is_budget out))
    by (apply filter_In; split; [exact I | reflexivity]).
  rewrite Hb in I'. unfold budget_block in I'.
  destruct budget as [b'|]; [|destruct I'].
  destruct (Num.ltb b' (current_month_expenses today df)) eqn:X;
    destruct I' as [I'|[]]; [discriminate|].
  inversion I'; subst.
  apply ltb_ge in X.
  split; [reflexivity|]. split; [reflexivity|]. split; [exact X|].
  destruct (Num.ltb 0 b) eqn:P.
  - apply ltb_lt in P. split.
    + apply Qle_shift_div_r; lra.
    + intro H. apply Qle_shift_div_l; [exact P|].
      assert (0 <= current_month_expenses today df).
      { unfold current_month_expenses, expenses_since.
        clear - H. induction df as [|r df IH].
        - simpl. rewrite sum_nil. lra.
        - assert (0 <= amount r) by (apply H; now left).
          assert (0 <= Num.sum (map amount
                     (filter (fun r0 => String.eqb (type r0) "Expense"
                        && Date.leb (Date.replace_day1 today) (date_ r0)) df)))
            by (apply IH; intros; apply H; now right).
          simpl. destruct (_ && _); cbn [map]; [rewrite sum_cons|]; lra. }
      lra.
  - split; [lra | intro; lra].
Qed.

Lemma budget_used_at_most_100_witness :
  generate_insights day_D [food day_D 300] 5000 300 (Some 1000)
  = Ok [TopCategoryWarning ((0 + 300) / 300) "Food";
        BudgetUsed ((0 + 300) / 1000) (0 + 300) 1000]
  /\ In (BudgetUsed ((0 + 300) / 1000) (0 + 300) 1000)
        [TopCategoryWarning ((0 + 300) / 300) "Food";
         BudgetUsed ((0 + 300) / 1000) (0 + 300) 1000]
  /\ Some 1000 = Some 1000
  /\ 0 + 300 = current_month_expenses day_D [food day_D 300]
  /\ 0 + 300 <= 1000
  /\ (0 + 300) / 1000 <= 1
  /\ ((forall r, In r [food day_D 300] -> 0 <= amount r) ->
      0 <= (0 + 300) / 1000).
Proof.
  assert (A : generate_insights day_D [food day_D 300] 5000 300 (Some 1000)
              = Ok [TopCategoryWarning ((0 + 300) / 300) "Food";
                    BudgetUsed ((0 + 300) / 1000) (0 + 300) 1000])
    by reflexivity.
  assert (B : In (BudgetUsed ((0 + 300) / 1000) (0 + 300) 1000)
                 [TopCategoryWarning ((0 + 300) / 300) "Food";
                  BudgetUsed ((0 + 300) / 1000) (0 + 300) 1000])
    by (simpl; tauto).
  split; [exact A|]. split; [exact B|].
  apply (budget_used_at_most_100 day_D [food day_D 300] 5000 300 (Some 1000)
           _ _ _ _ A B).
Defined.

(** ** The report *)

Lemma of_type_nil (df : frame) :
  of_type "Expense" df = [] <-> any_expense df = false.
Proof.
  unfold of_type, any_expense. induction df as [|r df IH]; simpl; [tauto|].
  destruct (String.eqb (type r) "Expense"); simpl;
    [split; discriminate | exact IH].
Qed.

Lemma groupby_rows_nil (K : Type) (cmp : K -> K -> comparison)
    (rows : series K) :
  groupby_sum cmp rows = [] <-> rows = [].
Proof.
  split; [|intros ->; reflexivity].
  unfold groupby_sum, group_keys. intro H. apply map_eq_nil in H.
  destruct rows as [|r rows]; [reflexivity|]. exfalso. simpl in H.
  assert (G : forall (l : series K) (acc : list K), acc <> [] ->
            fold_left (fun ks x => add_key cmp (fst x) ks) l acc <> []).
  { clear. induction l as [|x l IH]; intros acc N; simpl; [exact N|].
    apply IH. destruct acc as [|k acc]; [congruence|]. simpl.
    destruct (cmp (fst x) k); discriminate. }
  apply (G rows [fst r]); [discriminate | exact H].
Qed.

(** X27.  The report carries no chart for an empty ledger, only the
    savings curve for a ledger without expenses, and all three charts, pie
    first, as soon as the ledger holds an expense: never exactly two. *)
Theorem report_images_cases (df : frame) :
  (empty df = true -> report_images df = [])
  /\ (empty df = false -> any_expense df = false -> report_images df = [Line])
  /\ (any_expense df = true -> report_images df = [Pie; Line; Bar])
  /\ List.length (report_images df) <> 2%nat.
Proof.
  assert (C1 : empty df = true -> report_images df = []).
  { destruct df; [reflexivity | discriminate]. }
  assert (C2 : empty df = false -> any_expense df = false ->
               report_images df = [Line]).
  { intros N A. unfold report_images, Charts.exp_df, Charts.monthly.
    rewrite N. apply of_type_nil in A. rewrite A. reflexivity. }
  assert (C3 : any_expense df = true -> report_images df = [Pie; Line; Bar]).
  { intro A. assert (N : empty df = false) by (destruct df; [discriminate|reflexivity]).
    unfold report_images, Charts.exp_df, Charts.monthly. rewrite N. simpl negb.
    cbv iota.
    assert (O : of_type "Expense" df <> []).
    { intro H. apply of_type_nil in H. congruence. }
    destruct (groupby_sum String.compare (category_amount (of_type "Expense" df)))
      eqn:G1.
    { apply groupby_rows_nil in G1. unfold category_amount in G1.
      apply map_eq_nil in G1. contradiction. }
    destruct (groupby_sum Charts.period_compare _) eqn:G2.
    { apply groupby_rows_nil in G2. apply map_eq_nil in G2. contradiction. }
    reflexivity. }
  split; [exact C1|]. split; [exact C2|]. split; [exact C3|].
  destruct (empty df) eqn:N.
  - now rewrite C1.
  - destruct (any_expense df) eqn:A.
    + now rewrite C3.
    + now rewrite C2.
Qed.

Lemma pictures_of_story (images : list chart) (x : Q) :
  ~ In (MonthlyBudget x) (image_flowables images).
Proof.
  induction images as [|i images IH]; simpl; [tauto|].
  intros [H|[H|H]]; try discriminate. now apply IH.
Qed.

(** X28.  The report shows the budget line exactly when a budget is set
    and is not zero, although [generate_insights] emits a budget message
    for every set budget, zero included; the story has nine fixed
    flowables besides that line, and two more per chart. *)
Theorem create_pdf_report_budget_line (u : user) (income expenses savings : Q)
    (budget : option Q) (score : Z) (images : list chart) (today : date)
    (df : frame) :
  (forall x, In (MonthlyBudget x)
               (create_pdf_report u df income expenses savings budget score images)
             <-> budget = Some x /\ ~ x == 0)
  /\ List.length
       (create_pdf_report u df income expenses savings budget score images)
     = (9 + (if truthy budget then 1 else 0) + 2 * List.length images)%nat
  /\ (budget <> None ->
      exists out m,
        generate_insights today df income expenses budget = Ok out
        /\ filter is_budget out = [m]).
Proof.
  split; [|split].
  - intro x. unfold create_pdf_report.
    rewrite !in_app_iff. split.
    + intros [H|[H|[H|H]]].
      * simpl in H. repeat (destruct H as [H|H]; [discriminate|]). destruct H.
      * destruct budget as [b|]; [|destruct H].
        destruct (truthy (Some b)) eqn:T; [|destruct H].
        destruct H as [H|[]]. inversion H; subst.
        split; [reflexivity|]. simpl in T. apply negb_true_iff in T.
        now apply Qeq_bool_neq.
      * simpl in H. repeat (destruct H as [H|H]; [discriminate|]). destruct H.
      * now apply pictures_of_story in H.
    + intros [-> N]. right. left.
      assert (T : truthy (Some x) = true).
      { simpl. apply negb_true_iff.
        destruct (Qeq_bool x 0) eqn:Q0; [|reflexivity].
        apply Qeq_bool_iff in Q0. contradiction. }
      rewrite T. now left.
  - unfold create_pdf_report. rewrite !length_app.
    assert (L : List.length (image_flowables images)
                = (2 * List.length images)%nat).
    { induction images as [|i images IH]; simpl; [reflexivity|].
      rewrite IH. lia. }
    rewrite L. destruct budget as [b|]; [destruct (truthy (Some b))|];
      simpl; lia.
  - intro N.
    destruct (generate_insights_out today df income expenses budget)
      as (out & E & _ & Hb & _).
    destruct (budget_block_shape today df budget) as [B|(m & B & _)].
    + apply budget_block_nil in B. contradiction.
    + exists out, m. split; [exact E|]. now rewrite Hb.
Qed.

